(** * Bet tracker: odds conversion, ledger metrics and bankroll simulation

    A shallow embedding of [app.py] (the helper functions of the Streamlit
    bet tracker) and the properties its specification states about them.

    - Python exceptions are values of [exn]; a call returns an [outcome].
    - Python floats are IEEE binary64: [american_to_decimal] is embedded over
      Rocq's primitive floats.
    - The ledger arithmetic (pandas columns) is kept behind the interface
      [Number], instantiated both with binary64 and with exact rationals.
    - Data frames are Python objects: they live in a store and are passed by
      reference, so that in-place column assignment is visible to the caller. *)

From Stdlib Require Import ZArith QArith Floats Lia.
From stdpp Require Import base option list sorting strings gmap.

#[local] Open Scope Z_scope.

(* Decimal literals such as 9.09 stand for the nearest binary64, as in
   Python. *)
#[local] Set Warnings "-inexact-float".

(** ** Exceptions and outcomes *)

Inductive exn : Type :=
| TypeError
| ValueError
| OverflowError
| ZeroDivisionError
| KeyError (key : string)
| FileNotFoundError (path : string)
(** not a Python exception: a reference to no object, which no Python
    program can hold *)
| Dangling.

Inductive outcome (A : Type) : Type :=
| Ok (a : A)
| Raise (e : exn).
Arguments Ok {A} a.
Arguments Raise {A} e.

(** ** Odds conversion (binary64) *)

Module Odds.

#[local] Open Scope float_scope.

(** The values [american_to_decimal] can be handed: [None], an [int], a
    [float] or a [str]. *)
Inductive pyobj : Type :=
| PyNone
| PyInt (z : Z)
| PyFloat (x : float)
| PyStr (s : string).

(** [float(z)] for a Python [int]: the nearest binary64 (ties to even);
    [None] when the integer is too large, where Python raises
    [OverflowError]. *)
Definition float_of_Z (z : Z) : option float :=
  match binary_normalize prec emax z 0%Z false with
  | S754_infinity _ => None
  | sf => Some (SF2Prim sf)
  end.

(** Python's [x / y] on floats raises on a zero divisor. *)
Definition py_truediv (x y : float) : outcome float :=
  if y =? 0 then Raise ZeroDivisionError else Ok (x / y).

Section WithParser.

(** The string parser of the builtin [float]: [None] where the builtin
    raises [ValueError]. *)
Variable float_of_string : string -> option float.

(** The builtin [float(v)]. *)
Definition py_float (v : pyobj) : outcome float :=
  match v with
  | PyNone => Raise TypeError
  | PyInt z =>
      match float_of_Z z with
      | Some x => Ok x
      | None => Raise OverflowError
      end
  | PyFloat x => Ok x
  | PyStr s =>
      match float_of_string s with
      | Some x => Ok x
      | None => Raise ValueError
      end
  end.

(** [american_to_decimal], lines 25-33. *)
Definition american_to_decimal (odds : pyobj) : outcome float :=
  match py_float odds with
  | Raise TypeError | Raise ValueError => Ok nan
  | Raise e => Raise e
  | Ok odds =>
      if 0 <? odds then Ok (1 + odds / 100)
      else
        match py_truediv 100 (abs odds) with
        | Ok q => Ok (1 + q)
        | Raise e => Raise e
        end
  end.

End WithParser.

End Odds.

(** ** The ledger's arithmetic

    What [compute_metrics] and [bankroll_simulation] ask of the numbers in
    the [stake] and [profit] columns. *)

Class Number (F : Type) : Type := {
  (** an integer literal or count as a column value ([200.0], [0.0], [0]) *)
  num_of_Z : Z -> F;
  num_add : F -> F -> F;
  num_div : F -> F -> F;
  (** [x > 0] *)
  num_gt0 : F -> bool;
  (** the truth value of [x]: [x != 0] *)
  num_truth : F -> bool;
  (** a missing value (NaN) *)
  num_isna : F -> bool;
  num_truth_zero : num_truth (num_of_Z 0) = false;
}.

(** ** Data model *)

(** One row of the ledger: the fourteen columns of [load_bets]. *)
Record BetRecord (F : Type) : Type := mkBet {
  date : Z;
  sport : string;
  market : string;
  book : string;
  bet_type : string;
  selection : string;
  odds_american : F;
  odds_decimal : F;
  stake : F;
  result : string;
  profit : F;
  expected_value : F;
  closing_line : string;
  notes : string;
}.
Arguments mkBet {F}.
Arguments date {F} _.
Arguments sport {F} _.
Arguments market {F} _.
Arguments book {F} _.
Arguments bet_type {F} _.
Arguments selection {F} _.
Arguments odds_american {F} _.
Arguments odds_decimal {F} _.
Arguments stake {F} _.
Arguments result {F} _.
Arguments profit {F} _.
Arguments expected_value {F} _.
Arguments closing_line {F} _.
Arguments notes {F} _.

(** A row of a ledger data frame: the bet and the derived column that
    [compute_metrics] adds ([None]: no value in that column). *)
Record Row (F : Type) : Type := mkRow {
  bet : BetRecord F;
  cumulative_profit : option F;
}.
Arguments mkRow {F}.
Arguments bet {F} _.
Arguments cumulative_profit {F} _.

Abbreviation DataFrame F := (list (Row F)).

(** A Python [dict] with string keys, in insertion order. *)
Abbreviation dict F := (list (string * F)).

(** One snapshot row of the bankroll simulation: the dict
    [{'date': ..., 'balance__<book>': ..., ...}]. *)
Record Snapshot (F : Type) : Type := mkSnapshot {
  snap_date : Z;
  snap_balances : dict F;
}.
Arguments mkSnapshot {F}.
Arguments snap_date {F} _.
Arguments snap_balances {F} _.

(** The data frame [pd.DataFrame(rows)] of snapshot rows, with its column
    labels. *)
Record SnapFrame (F : Type) : Type := mkSnapFrame {
  sf_columns : list string;
  sf_rows : list (Snapshot F);
}.
Arguments mkSnapFrame {F}.
Arguments sf_columns {F} _.
Arguments sf_rows {F} _.

(** The dictionary [compute_metrics] returns. *)
Record Metrics (F : Type) : Type := mkMetrics {
  total_bets : nat;
  total_staked : F;
  total_profit : F;
  roi : F;
  win_rate : F;
}.
Arguments mkMetrics {F}.
Arguments total_bets {F} _.
Arguments total_staked {F} _.
Arguments total_profit {F} _.
Arguments roi {F} _.
Arguments win_rate {F} _.

(** ** The store: data frame objects and files *)

Abbreviation loc := nat (only parsing).

Record world (F csv : Type) : Type := mkWorld {
  heap : list (DataFrame F);
  files : gmap string csv;
}.
Arguments mkWorld {F csv}.
Arguments heap {F csv} _.
Arguments files {F csv} _.

(** A computation reads and updates the store and returns or raises; the
    store survives an exception. *)
Definition M (F csv A : Type) : Type := world F csv -> outcome A * world F csv.

Section Monad.
Context {F csv : Type}.

Definition ret {A} (a : A) : M F csv A := fun w => (Ok a, w).

Definition raise {A} (e : exn) : M F csv A := fun w => (Raise e, w).

Definition bind {A B} (m : M F csv A) (k : A -> M F csv B) : M F csv B :=
  fun w =>
    match m w with
    | (Ok a, w') => k a w'
    | (Raise e, w') => (Raise e, w')
    end.

Definition lift {A} (o : outcome A) : M F csv A := fun w => (o, w).

(** [try: m except FileNotFoundError: h] *)
Definition except_FileNotFoundError {A} (m h : M F csv A) : M F csv A :=
  fun w =>
    match m w with
    | (Raise (FileNotFoundError _), w') => h w'
    | r => r
    end.

(** Reading through a reference. *)
Definition deref (l : loc) : M F csv (DataFrame F) :=
  fun w =>
    match heap w !! l with
    | Some df => (Ok df, w)
    | None => (Raise Dangling, w)
    end.

(** A new object. *)
Definition alloc (df : DataFrame F) : M F csv loc :=
  fun w => (Ok (length (heap w)), mkWorld (heap w ++ [df]) (files w)).

(** In-place update of the object at [l]. *)
Definition assign (l : loc) (df : DataFrame F) : M F csv unit :=
  fun w => (Ok tt, mkWorld (<[l := df]> (heap w)) (files w)).

Definition read_file (path : string) : M F csv csv :=
  fun w =>
    match files w !! path with
    | Some c => (Ok c, w)
    | None => (Raise (FileNotFoundError path), w)
    end.

Definition write_file (path : string) (c : csv) : M F csv unit :=
  fun w => (Ok tt, mkWorld (heap w) (<[path := c]> (files w))).

End Monad.

Declare Scope monad_scope.
Delimit Scope monad_scope with monad.
Notation "'let*' x ':=' m 'in' k" := (bind m (fun x => k))
  (at level 10, x name, m at level 100, k at level 200) : monad_scope.
Notation "'run' m 'in' k" := (bind m (fun _ => k))
  (at level 10, m at level 100, k at level 200) : monad_scope.
#[local] Open Scope monad_scope.

(** ** pandas and dict operations *)

Section Frames.
Context {F : Type} {num : Number F}.

(** [Series.sum()]: missing values count as zero ([skipna=True]). The
    values are added from left to right; on a long float column numpy
    associates the additions differently, which changes the rounding only. *)
Definition fillna0 (x : F) : F := if num_isna x then num_of_Z 0 else x.

Definition sum (xs : list F) : F :=
  fold_left num_add (map fillna0 xs) (num_of_Z 0).

(** [numpy.cumsum]: [out[0] = a[0]], [out[i] = out[i-1] + a[i]]. *)
Fixpoint cumsum_from (acc : F) (xs : list F) : list F :=
  match xs with
  | [] => []
  | x :: xs' => let acc' := num_add acc x in acc' :: cumsum_from acc' xs'
  end.

Definition np_cumsum (xs : list F) : list F :=
  match xs with
  | [] => []
  | x :: xs' => x :: cumsum_from x xs'
  end.

(** [Series.cumsum()]: the running sum in row order; a missing value is
    skipped by the sum and stays missing in the result. *)
Definition cumsum (xs : list F) : list F :=
  zip_with (fun x c => if num_isna x then x else c) xs (np_cumsum (map fillna0 xs)).

(** The frame after [df['cumulative_profit'] = col]: the column is set row
    by row, the other columns stay. *)
Definition with_cumulative_profit (df : DataFrame F) (col : list F) : DataFrame F :=
  zip_with (fun r c => mkRow (bet r) (Some c)) df col.

(** [(s > 0).sum()] *)
Definition count_gt0 (xs : list F) : nat := length (List.filter num_gt0 xs).

(** [sort_values(key)], ascending. pandas leaves the order of rows with
    equal keys to the sorting algorithm; the embedding keeps them in their
    original order (what the default algorithm does on short frames). *)
Fixpoint insert_by {A} (key : A -> Z) (x : A) (l : list A) : list A :=
  match l with
  | [] => [x]
  | y :: l' => if (key x <=? key y)%Z then x :: l else y :: insert_by key x l'
  end.

Definition sort_by {A} (key : A -> Z) (l : list A) : list A :=
  foldr (insert_by key) [] l.

(** Ascending in the key. *)
Definition sorted_by {A} (key : A -> Z) (l : list A) : Prop :=
  StronglySorted (fun a b => (key a <= key b)%Z) l.

(** [Series.unique()]: the distinct values in order of first appearance. *)
Fixpoint unique_from (seen : list string) (xs : list string) : list string :=
  match xs with
  | [] => []
  | x :: xs' =>
      if bool_decide (x ∈ seen) then unique_from seen xs'
      else x :: unique_from (x :: seen) xs'
  end.

Definition unique (xs : list string) : list string := unique_from [] xs.

(** [d.get(k, default)] *)
Fixpoint dict_get (d : dict F) (k : string) (default : F) : F :=
  match d with
  | [] => default
  | (k', v) :: d' => if bool_decide (k' = k) then v else dict_get d' k default
  end.

(** [d[k]] as a lookup that may find nothing. *)
Fixpoint dict_lookup (d : dict F) (k : string) : option F :=
  match d with
  | [] => None
  | (k', v) :: d' => if bool_decide (k' = k) then Some v else dict_lookup d' k
  end.

(** [d[k] = v]: in place for a key of [d], at the end for a new key. *)
Fixpoint dict_set (d : dict F) (k : string) (v : F) : dict F :=
  match d with
  | [] => [(k, v)]
  | (k', v') :: d' =>
      if bool_decide (k' = k) then (k', v) :: d' else (k', v') :: dict_set d' k v
  end.

(** [pd.DataFrame(rows)] for a list of snapshot dicts: the columns are the
    keys of the dicts in order of first appearance; the empty list gives a
    frame with no rows and no columns. *)
Definition snapshot_keys (s : Snapshot F) : list string :=
  "date" :: map fst (snap_balances s).

Definition frame_of_rows (rows : list (Snapshot F)) : SnapFrame F :=
  mkSnapFrame (unique (concat (map snapshot_keys rows))) rows.

(** [drop_duplicates('date')], with the default [keep='first']: of the rows
    with one date the first stays. An empty frame is returned as it is;
    otherwise the column has to exist. *)
Fixpoint keep_first (seen : list Z) (rows : list (Snapshot F)) : list (Snapshot F) :=
  match rows with
  | [] => []
  | s :: rows' =>
      if bool_decide (snap_date s ∈ seen) then keep_first seen rows'
      else s :: keep_first (snap_date s :: seen) rows'
  end.

Definition drop_duplicates_date (fr : SnapFrame F) : outcome (SnapFrame F) :=
  match sf_rows fr with
  | [] => Ok fr
  | _ =>
      if bool_decide ("date" ∈ sf_columns fr)
      then Ok (mkSnapFrame (sf_columns fr) (keep_first [] (sf_rows fr)))
      else Raise (KeyError "date")
  end.

(** [sort_values('date')] on a snapshot frame: looking up the column comes
    first, also on an empty frame. *)
Definition snap_sort_values_date (fr : SnapFrame F) : outcome (SnapFrame F) :=
  if bool_decide ("date" ∈ sf_columns fr)
  then Ok (mkSnapFrame (sf_columns fr) (sort_by snap_date (sf_rows fr)))
  else Raise (KeyError "date").

End Frames.

(** ** The functions of [app.py] *)

Section Ledger.
Context {F : Type} {num : Number F} {csv : Type}.

(** pandas' CSV writer and reader ([DataFrame.to_csv(index=False)] and
    [pd.read_csv(parse_dates=['date'])]) on the contents of a file. *)
Variable to_csv : DataFrame F -> csv.
Variable parse_csv : csv -> outcome (DataFrame F).

Abbreviation M' := (M F csv).

(** Lines 15-20. *)
Definition STARTING_BANKROLLS : dict F :=
  [("FanDuel", num_of_Z 200); ("DraftKings", num_of_Z 200); ("Caesars", num_of_Z 200)].

Definition CSV_PATH : string := "bets_log.csv".

(** [df[c]] for a column [c] of the bets. *)
Definition column {A} (c : BetRecord F -> A) (df : loc) : M' (list A) :=
  let* d := deref df in ret (map (fun r => c (bet r)) d).

(** [len(df)] *)
Definition len (df : loc) : M' nat :=
  let* d := deref df in ret (length d).

(** [df['cumulative_profit'] = col]: column assignment, in place. *)
Definition setitem_cumulative_profit (df : loc) (col : list F) : M' unit :=
  let* d := deref df in assign df (with_cumulative_profit d col).

(** [x / y] on column aggregates. Python numbers raise on a zero divisor
    (numpy scalars would answer inf or nan with a warning): the embedding
    takes the raising reading, so that a guard that is missing shows. *)
Definition truediv (x y : F) : M' F :=
  if num_truth y then ret (num_div x y) else raise ZeroDivisionError.

(** [a / b] on integers: true division. *)
Definition int_truediv (a b : nat) : M' F :=
  match b with
  | O => raise ZeroDivisionError
  | _ => ret (num_div (num_of_Z (Z.of_nat a)) (num_of_Z (Z.of_nat b)))
  end.

(** [pd.read_csv(path, parse_dates=['date'])]: a new frame. *)
Definition read_csv (path : string) : M' loc :=
  let* c := read_file path in
  let* d := lift (parse_csv c) in
  alloc d.

(** [load_bets], lines 36-42. The frame of the [except] branch has the
    fourteen columns and no rows. *)
Definition load_bets (path : string) : M' loc :=
  except_FileNotFoundError (read_csv path) (alloc []).

(** [save_bets], lines 45-46. *)
Definition save_bets (df : loc) (path : string) : M' unit :=
  let* d := deref df in write_file path (to_csv d).

(** [pd.concat([df, pd.DataFrame([bet_data])], ignore_index=True)]: a new
    frame, the rows of [df] and then the new one. *)
Definition concat_bet (df : loc) (bet_data : BetRecord F) : M' loc :=
  let* d := deref df in alloc (d ++ [mkRow bet_data None]).

(** [add_bet], lines 49-52. *)
Definition add_bet (df : loc) (bet_data : BetRecord F) : M' loc :=
  let* df := concat_bet df bet_data in
  run save_bets df CSV_PATH in
  ret df.

(** [compute_metrics], lines 55-67. *)
Definition compute_metrics (df : loc) : M' (Metrics F) :=
  let* profits := column profit df in
  run setitem_cumulative_profit df (cumsum profits) in
  let* stakes := column stake df in
  let total_staked := sum stakes in
  let* profits := column profit df in
  let total_profit := sum profits in
  let* roi :=
    if num_truth total_staked then truediv total_profit total_staked
    else ret (num_of_Z 0) in
  let* n := len df in
  let* win_rate :=
    match n with
    | O => ret (num_of_Z 0)
    | _ =>
        let* profits := column profit df in
        let* n := len df in
        int_truediv (count_gt0 profits) n
    end in
  let* n := len df in
  ret (mkMetrics n total_staked total_profit roi win_rate).

(** [df.sort_values('date')] on a ledger: a new frame. *)
Definition sort_values_date (df : loc) : M' loc :=
  let* d := deref df in alloc (sort_by (fun r => date (bet r)) d).

(** The snapshot dict of line 77-78. *)
Definition snapshot (d : Z) (running : dict F) : Snapshot F :=
  mkSnapshot d (map (fun kv => ("balance__" +:+ fst kv, snd kv)) running).

(** The loop of lines 74-79 over the rows of the sorted frame. *)
Fixpoint walk (running : dict F) (rows : DataFrame F) : list (Snapshot F) :=
  match rows with
  | [] => []
  | r :: rows' =>
      let b := book (bet r) in
      let running :=
        dict_set running b (num_add (dict_get running b (num_of_Z 0)) (profit (bet r))) in
      snapshot (date (bet r)) running :: walk running rows'
  end.

(** [bankroll_simulation], lines 70-81. *)
Definition bankroll_simulation (df : loc) : M' (SnapFrame F) :=
  let* df := sort_values_date df in
  let* books := column book df in
  let running :=
    map (fun b => (b, dict_get STARTING_BANKROLLS b (num_of_Z 0))) (unique books) in
  let* rows := deref df in
  let rows := walk running rows in
  let* out := lift (drop_duplicates_date (frame_of_rows rows)) in
  lift (snap_sort_values_date out).

End Ledger.

(** ** The functions on the value of the ledger

    What the two computations return, as functions of the frame the
    reference holds ([compute_metrics_run] and [bankroll_simulation_run]
    below relate them to the computations). *)

Section Values.
Context {F : Type} {num : Number F}.

Definition metrics_of (df : DataFrame F) : Metrics F :=
  let stakes := map (fun r => stake (bet r)) df in
  let profits := map (fun r => profit (bet r)) df in
  mkMetrics (length df) (sum stakes) (sum profits)
    (if num_truth (sum stakes) then num_div (sum profits) (sum stakes) else num_of_Z 0)
    (match length df with
     | O => num_of_Z 0
     | _ => num_div (num_of_Z (Z.of_nat (count_gt0 profits))) (num_of_Z (Z.of_nat (length df)))
     end).

(** The running balances before the loop (line 72). *)
Definition seed_running (sorted : DataFrame F) : dict F :=
  map (fun b => (b, dict_get STARTING_BANKROLLS b (num_of_Z 0)))
    (unique (map (fun r => book (bet r)) sorted)).

Definition simulation_of (df : DataFrame F) : outcome (SnapFrame F) :=
  let sorted := sort_by (fun r => date (bet r)) df in
  match drop_duplicates_date (frame_of_rows (walk (seed_running sorted) sorted)) with
  | Ok out => snap_sort_values_date out
  | Raise e => Raise e
  end.

End Values.

(** ** Two arithmetics: binary64 and exact rationals *)

(** An integer as a binary64 (nearest, ties to even). *)
Definition Z2float (z : Z) : float := SF2Prim (binary_normalize prec emax z 0 false).

#[export] Instance float_Number : Number float := {|
  num_of_Z := Z2float;
  num_add := PrimFloat.add;
  num_div := PrimFloat.div;
  num_gt0 x := (0 <? x)%float;
  num_truth x := negb (x =? 0)%float;
  num_isna := PrimFloat.is_nan;
  num_truth_zero := eq_refl;
|}.

#[export] Instance Q_Number : Number Q := {|
  num_of_Z := inject_Z;
  num_add := Qplus;
  num_div := Qdiv;
  num_gt0 x := negb (Qle_bool x 0);
  num_truth x := negb (Qeq_bool x 0);
  num_isna _ := false;
  num_truth_zero := eq_refl;
|}.

(** A bet with the given date, book, stake and profit, the other columns as
    the form of the application fills them by default. *)
Definition a_bet {F} `{Number F} (d : Z) (b : string) (st pr : F) : BetRecord F :=
  mkBet d "NBA" "Moneyline" b "Single" "LAL -3" (num_of_Z 100) (num_of_Z 2) st
    "Pending" pr (num_of_Z 0) "" "".

(** A store holding one ledger, at reference [0], and no file. *)
Definition one_ledger {F} (df : DataFrame F) : world F unit := mkWorld [df] ∅.

Definition ledger_of {F} (bets : list (BetRecord F)) : DataFrame F :=
  map (fun b => mkRow b None) bets.


(** ** The words of the specification

    Two definitions that follow the specification rather than the code, to
    compare the code with. *)

Section SpecWords.
Context {F : Type} {num : Number F}.

Fixpoint assoc_nat (i : nat) (t : list (nat * F)) : option F :=
  match t with
  | [] => None
  | (j, v) :: t' => if bool_decide (j = i) then Some v else assoc_nat i t'
  end.

(** Section 4.3: the cumulative profit of a record is the running sum of
    profit in ascending date order, ties broken by original insertion
    order. The result lists it for the rows of the ledger, in the order of
    the ledger. *)
Definition cumulative_profit_by_date (df : DataFrame F) : list (option F) :=
  let indexed := zip (seq 0 (length df)) df in
  let sorted := sort_by (fun ir => date (bet (snd ir))) indexed in
  let sums := cumsum (map (fun ir => profit (bet (snd ir))) sorted) in
  let table := zip (map fst sorted) sums in
  map (fun i => assoc_nat i table) (seq 0 (length df)).

(** Section 4.4, step 4: one row per distinct date, keeping the last
    snapshot of a date. *)
Fixpoint keep_last (rows : list (Snapshot F)) : list (Snapshot F) :=
  match rows with
  | [] => []
  | s :: rows' =>
      if bool_decide (snap_date s ∈ map snap_date rows') then keep_last rows'
      else s :: keep_last rows'
  end.

End SpecWords.

(** ** Ledgers to run the code on *)

(** Two bets entered out of date order. *)
Definition out_of_order_ledger : DataFrame float :=
  ledger_of [a_bet 2 "FanDuel" 10%float 1%float; a_bet 1 "FanDuel" 10%float 2%float].

(** Two bets of one day. *)
Definition same_day_ledger : DataFrame float :=
  ledger_of [a_bet 1 "FanDuel" 10%float 5%float; a_bet 1 "FanDuel" 10%float 7%float].

(** A store with no object and no file: the application before its first
    bet. *)
Definition fresh_start : world float unit := mkWorld [] ∅.

(** The example of section 8 of the specification, in both arithmetics. *)
Definition example_ledger_Q : DataFrame Q :=
  ledger_of [a_bet 1 "FanDuel" 10%Q 9.09%Q; a_bet 2 "FanDuel" 10%Q (-10)%Q].

Definition example_ledger_float : DataFrame float :=
  ledger_of [a_bet 1 "FanDuel" 10%float 9.09%float; a_bet 2 "FanDuel" 10%float (-10)%float].

(** Three books, one of them not configured, the last bet on an earlier
    day. *)
Definition three_book_ledger : DataFrame float :=
  ledger_of [a_bet 1 "FanDuel" 10%float 5%float; a_bet 1 "Other" 10%float 7%float;
             a_bet 0 "Caesars" 1%float 1%float].

(** ** What a snapshot has taken in

    Definitions to state which bets a row of the simulation reflects. *)

Section SnapshotContents.
Context {F : Type} {num : Number F}.

(** One pass of lines 75-76 of the loop over the running balances. *)
Definition step_running (running : dict F) (r : Row F) : dict F :=
  dict_set running (book (bet r))
    (num_add (dict_get running (book (bet r)) (num_of_Z 0)) (profit (bet r))).

Definition running_after (running : dict F) (rows : DataFrame F) : dict F :=
  fold_left step_running rows running.

(** The starting balance of a book with the profits of its bets among
    [rows] added one after the other. *)
Definition balance_after (b : string) (rows : DataFrame F) : F :=
  fold_left num_add
    (map (fun r => profit (bet r)) (filter (fun r => book (bet r) = b) rows))
    (dict_get STARTING_BANKROLLS b (num_of_Z 0)).

(** Of a frame in date order: the bets dated before [d] and the first bet
    dated [d]. *)
Definition first_of_day (d : Z) (sorted : DataFrame F) : DataFrame F :=
  filter (fun r => (date (bet r) < d)%Z) sorted
  ++ take 1 (filter (fun r => date (bet r) = d) sorted).

(** The bets dated [d] or before. *)
Definition up_to_day (d : Z) (rows : DataFrame F) : DataFrame F :=
  filter (fun r => (date (bet r) <= d)%Z) rows.

End SnapshotContents.

(** ** The page: the form and the dashboard (lines 86-172)

    The widgets and charts of Streamlit and Plotly are outside the
    embedding; what is embedded is the data that the page computes from the
    ledger and hands to them. *)

(** Python's [s.replace(old, '')] for a literal [old]: the occurrences of
    [old] are removed from left to right, without overlap. [skip] counts the
    characters of an occurrence that are still to be dropped. *)
Fixpoint remove_from (skip : nat) (old s : string) : string :=
  match s with
  | EmptyString => EmptyString
  | String c s' =>
      match skip with
      | S k => remove_from k old s'
      | O =>
          if String.prefix old s then remove_from (String.length old - 1) old s'
          else String c (remove_from O old s')
      end
  end.

Definition str_remove (old s : string) : string :=
  match old with
  | EmptyString => s
  | _ => remove_from 0 old s
  end.

(** [old] occurs in [s]. *)
Fixpoint occurs (old s : string) : bool :=
  String.prefix old s ||
  match s with
  | EmptyString => false
  | String _ s' => occurs old s'
  end.

(** The label of a balance column in the bankroll chart (line 167). *)
Definition chart_label (column : string) : string := str_remove "balance__" column.

(** Sorting of group keys: ascending, as Python compares strings. *)
Fixpoint insert_string (x : string) (l : list string) : list string :=
  match l with
  | [] => [x]
  | y :: l' => if String.leb x y then x :: l else y :: insert_string x l'
  end.

Definition sort_strings (l : list string) : list string := foldr insert_string [] l.

(** A row of [df.groupby(key).agg({'profit': 'sum', 'stake': 'sum'})] with
    its [ROI] column. *)
Record GroupRow (F : Type) : Type := mkGroupRow {
  group_key : string;
  group_profit : F;
  group_stake : F;
  group_roi : F;
}.
Arguments mkGroupRow {F}.
Arguments group_key {F} _.
Arguments group_profit {F} _.
Arguments group_stake {F} _.
Arguments group_roi {F} _.

(** What the page hands to its charts and tables. *)
Record Dashboard (F : Type) : Type := mkDashboard {
  dash_metrics : Metrics F;
  dash_cumulative : DataFrame F;
  dash_by_sport : list (GroupRow F);
  dash_by_book : list (GroupRow F);
  dash_bankroll : option (list (Z * string * option F));
  dash_table : DataFrame F;
}.
Arguments mkDashboard {F}.
Arguments dash_metrics {F} _.
Arguments dash_cumulative {F} _.
Arguments dash_by_sport {F} _.
Arguments dash_by_book {F} _.
Arguments dash_bankroll {F} _.
Arguments dash_table {F} _.

Section Page.
Context {F : Type} {num : Number F} {csv : Type}.

(** Lines 153-154 and 158-159: the groups in ascending order of their key,
    the sums of [profit] and [stake] of each group, and their quotient.
    The division of two columns does not raise. *)
Definition roi_by (key : BetRecord F -> string) (df : DataFrame F) : list (GroupRow F) :=
  map (fun k =>
         let rows := filter (fun r => key (bet r) = k) df in
         let p := sum (map (fun r => profit (bet r)) rows) in
         let s := sum (map (fun r => stake (bet r)) rows) in
         mkGroupRow k p s (num_div p s))
      (sort_strings (unique (map (fun r => key (bet r)) df))).

(** [bal_ts.melt(id_vars='date', var_name='book', value_name='balance')]:
    for each column other than [date], in the order of the columns, one row
    per row of the frame with the date, the name of the column and the
    value ([None]: no value). *)
Definition melt (fr : SnapFrame F) : outcome (list (Z * string * option F)) :=
  if bool_decide ("date" ∈ sf_columns fr)
  then Ok (concat
             (map (fun c => map (fun s => (snap_date s, c, dict_lookup (snap_balances s) c))
                            (sf_rows fr))
                  (filter (fun c => c <> "date") (sf_columns fr))))
  else Raise (KeyError "date").

(** Lines 166-167: the rows of the bankroll chart. *)
Definition bankroll_chart (fr : SnapFrame F) : outcome (list (Z * string * option F)) :=
  match melt fr with
  | Ok rows => Ok (map (fun row => (fst (fst row), chart_label (snd (fst row)), snd row)) rows)
  | Raise e => Raise e
  end.

(** [fr.empty]: no row or no column. *)
Definition snapframe_empty (fr : SnapFrame F) : bool :=
  match sf_rows fr, sf_columns fr with
  | _ :: _, _ :: _ => false
  | _, _ => true
  end.

(** [df.sort_values('date', ascending=False)]: pandas sorts the reversed
    frame and reverses the result. *)
Definition sort_values_date_descending (df : loc) : M F csv loc :=
  let* d := deref df in alloc (rev (sort_by (fun r => date (bet r)) (rev d))).

(** Lines 131-172. [None]: the page stops at line 133, before the
    dashboard. *)
Definition dashboard (df : loc) : M F csv (option (Dashboard F)) :=
  let* n := len df in
  match n with
  | O => ret None
  | _ =>
      let* metrics := compute_metrics df in
      let* df_sorted := sort_values_date df in
      let* cumulative := deref df_sorted in
      let* d := deref df in
      let by_sport := roi_by sport d in
      let by_book := roi_by book d in
      let* bal_ts := bankroll_simulation df in
      let* chart :=
        if snapframe_empty bal_ts then ret None
        else let* rows := lift (bankroll_chart bal_ts) in ret (Some rows) in
      let* t := sort_values_date_descending df in
      let* table := deref t in
      ret (Some (mkDashboard metrics cumulative by_sport by_book chart table))
  end.

End Page.

(** The values of the form of lines 94-108. *)
Record BetForm : Type := mkBetForm {
  form_date : Z;
  form_sport : string;
  form_market : string;
  form_book : string;
  form_bet_type : string;
  form_selection : string;
  form_odds_american : Z;
  form_stake : float;
  form_result : string;
  form_profit : float;
  form_expected_value : float;
  form_closing_line : string;
  form_notes : string;
}.

Section Submit.
Context {csv : Type}.
Variable float_of_string : string -> option float.
Variable to_csv : DataFrame float -> csv.

(** The dict [new_bet] of lines 111-126. *)
Definition new_bet (f : BetForm) : outcome (BetRecord float) :=
  match Odds.american_to_decimal float_of_string (Odds.PyInt (form_odds_american f)) with
  | Ok odds_decimal =>
      Ok (mkBet (form_date f) (form_sport f) (form_market f) (form_book f)
            (form_bet_type f) (form_selection f) (Z2float (form_odds_american f))
            odds_decimal (form_stake f) (form_result f) (form_profit f)
            (form_expected_value f) (form_closing_line f) (form_notes f))
  | Raise e => Raise e
  end.

(** Lines 110-127: what a submitted form does. *)
Definition submit_bet (f : BetForm) (df : loc) : M float csv loc :=
  let* b := lift (new_bet f) in add_bet to_csv df b.

End Submit.

(** Forms to submit: the default form of the page with the odds 0, and
    with the odds -110. *)
Definition form_with_odds (odds : Z) : BetForm :=
  mkBetForm 3 "NBA" "Moneyline" "FanDuel" "Single" "LAL -3" odds 10%float "Pending"
    0%float 0%float "" "".

(** A ledger of one sport with stakes of zero. *)
Definition free_bets_ledger : DataFrame float :=
  ledger_of [a_bet 1 "FanDuel" 0%float 5%float; a_bet 2 "Caesars" 0%float (-5)%float].

(** ** Running the computations *)

Section Run.
Context {F : Type} {num : Number F} {csv : Type}.
Implicit Types (w : world F csv) (df : DataFrame F) (l : loc).

Lemma bind_ok {A B} (m : M F csv A) (k : A -> M F csv B) w a w' :
  m w = (Ok a, w') -> bind m k w = k a w'.
Proof. intros E. unfold bind. now rewrite E. Qed.

Lemma bind_raise {A B} (m : M F csv A) (k : A -> M F csv B) w e w' :
  m w = (Raise e, w') -> bind m k w = (Raise e, w').
Proof. intros E. unfold bind. now rewrite E. Qed.

Lemma deref_ok w l df : heap w !! l = Some df -> deref l w = (Ok df, w).
Proof. intros E. unfold deref. now rewrite E. Qed.

Lemma column_ok {A} (c : BetRecord F -> A) w l df :
  heap w !! l = Some df -> column c l w = (Ok (map (fun r => c (bet r)) df), w).
Proof. intros E. unfold column. now rewrite (bind_ok _ _ _ _ _ (deref_ok _ _ _ E)). Qed.

Lemma len_ok w l df : heap w !! l = Some df -> len l w = (Ok (length df), w).
Proof. intros E. unfold len. now rewrite (bind_ok _ _ _ _ _ (deref_ok _ _ _ E)). Qed.

Lemma length_cumsum_from (acc : F) xs : length (cumsum_from acc xs) = length xs.
Proof. revert acc. induction xs as [|x xs IH]; intros acc; simpl; [done|]. now rewrite IH. Qed.

Lemma length_np_cumsum (xs : list F) : length (np_cumsum xs) = length xs.
Proof. destruct xs; simpl; [done|]. now rewrite length_cumsum_from. Qed.

Lemma length_cumsum (xs : list F) : length (cumsum xs) = length xs.
Proof.
  unfold cumsum. rewrite length_zip_with, length_np_cumsum, length_map. lia.
Qed.

Lemma bets_with_cumulative_profit df col :
  length col = length df -> map bet (with_cumulative_profit df col) = map bet df.
Proof.
  unfold with_cumulative_profit. revert col.
  induction df as [|r df IH]; intros [|c col] E; simpl in *; try done.
  f_equal. apply IH. lia.
Qed.

Lemma column_with_cumulative_profit {A} (c : BetRecord F -> A) df col :
  length col = length df ->
  map (fun r => c (bet r)) (with_cumulative_profit df col) = map (fun r => c (bet r)) df.
Proof.
  intros E. rewrite <- (map_map bet c), bets_with_cumulative_profit by done.
  now rewrite map_map.
Qed.

Lemma length_with_cumulative_profit df col :
  length col = length df -> length (with_cumulative_profit df col) = length df.
Proof. intros E. unfold with_cumulative_profit. rewrite length_zip_with. lia. Qed.

Lemma compute_metrics_run w l df :
  heap w !! l = Some df ->
  compute_metrics l w =
    (Ok (metrics_of df),
     mkWorld (<[l := with_cumulative_profit df (cumsum (map (fun r => profit (bet r)) df))]> (heap w))
       (files w)).
Proof.
  intros E. unfold compute_metrics.
  rewrite (bind_ok _ _ _ _ _ (column_ok profit _ _ _ E)).
  unfold setitem_cumulative_profit at 1.
  set (col := cumsum _).
  assert (Hcol : length col = length df) by (unfold col; now rewrite length_cumsum, length_map).
  erewrite bind_ok; cycle 1.
  { erewrite bind_ok by (apply deref_ok, E). reflexivity. }
  set (w1 := mkWorld _ _).
  assert (E1 : heap w1 !! l = Some (with_cumulative_profit df col)).
  { unfold w1; simpl. apply list_lookup_insert_eq. eapply lookup_lt_Some, E. }
  rewrite (bind_ok _ _ _ _ _ (column_ok stake _ _ _ E1)).
  rewrite (bind_ok _ _ _ _ _ (column_ok profit _ _ _ E1)).
  rewrite !column_with_cumulative_profit by done.
  unfold metrics_of. cbv zeta.
  set (ts := sum (map (fun r => stake (bet r)) df)).
  set (tp := sum (map (fun r => profit (bet r)) df)).
  assert (Hroi : forall w0, (if num_truth ts then truediv (csv := csv) tp ts else ret (num_of_Z 0)) w0
                 = (Ok (if num_truth ts then num_div tp ts else num_of_Z 0), w0)).
  { intros w0. unfold truediv. now destruct (num_truth ts). }
  rewrite (bind_ok _ _ _ _ _ (Hroi w1)).
  rewrite (bind_ok _ _ _ _ _ (len_ok _ _ _ E1)).
  pose proof (length_with_cumulative_profit df col Hcol) as Hlen.
  pose proof (column_with_cumulative_profit profit df col Hcol) as Hp.
  rewrite Hlen.
  destruct (length df) as [|n].
  - erewrite bind_ok by reflexivity.
    rewrite (bind_ok _ _ _ _ _ (len_ok _ _ _ E1)).
    now rewrite Hlen.
  - erewrite bind_ok; cycle 1.
    { rewrite (bind_ok _ _ _ _ _ (column_ok profit _ _ _ E1)).
      rewrite (bind_ok _ _ _ _ _ (len_ok _ _ _ E1)).
      rewrite Hlen. reflexivity. }
    rewrite (bind_ok _ _ _ _ _ (len_ok _ _ _ E1)).
    now rewrite Hlen, Hp.
Qed.

Lemma bankroll_simulation_run w l df :
  heap w !! l = Some df ->
  bankroll_simulation l w =
    (simulation_of df,
     mkWorld (heap w ++ [sort_by (fun r => date (bet r)) df]) (files w)).
Proof.
  intros E. unfold bankroll_simulation, sort_values_date.
  erewrite bind_ok; cycle 1.
  { erewrite bind_ok by (apply deref_ok, E). reflexivity. }
  set (sorted := sort_by _ df). set (w1 := mkWorld _ _).
  assert (E1 : heap w1 !! length (heap w) = Some sorted).
  { unfold w1; simpl. apply list_lookup_middle. reflexivity. }
  rewrite (bind_ok _ _ _ _ _ (column_ok book _ _ _ E1)).
  rewrite (bind_ok _ _ _ _ _ (deref_ok _ _ _ E1)).
  unfold simulation_of, seed_running. fold sorted.
  unfold bind, lift.
  now destruct (drop_duplicates_date _).
Qed.

End Run.

(** ** Sorting *)

Section Sorting.
Context {A : Type} (key : A -> Z).

Lemma insert_by_perm x l : insert_by key x l ≡ₚ x :: l.
Proof.
  induction l as [|y l IH]; simpl; [done|].
  destruct (key x <=? key y)%Z; [done|].
  rewrite IH. apply Permutation_swap.
Qed.

Lemma sort_by_perm l : sort_by key l ≡ₚ l.
Proof.
  induction l as [|x l IH]; simpl; [done|].
  now rewrite insert_by_perm, IH.
Qed.

Lemma insert_by_sorted x l : sorted_by key l -> sorted_by key (insert_by key x l).
Proof.
  unfold sorted_by. induction l as [|y l IH]; simpl; intros Hs.
  - apply StronglySorted_cons. split; [constructor | done].
  - apply StronglySorted_cons in Hs as [Hy Hl].
    destruct (key x <=? key y)%Z eqn:E.
    + apply Z.leb_le in E. apply StronglySorted_cons. split.
      * constructor; [done|]. eapply Forall_impl; [exact Hy|]. simpl; intros; lia.
      * apply StronglySorted_cons. done.
    + apply Z.leb_gt in E. apply StronglySorted_cons. split.
      * rewrite insert_by_perm. constructor; [lia | done].
      * apply IH, Hl.
Qed.

Lemma sort_by_sorted l : sorted_by key (sort_by key l).
Proof.
  induction l as [|x l IH]; simpl; [constructor|].
  apply insert_by_sorted, IH.
Qed.

(** Sorting leaves a frame that is in order as it is. *)
Lemma sort_by_id l : sorted_by key l -> sort_by key l = l.
Proof.
  unfold sorted_by. induction l as [|x l IH]; simpl; intros Hs; [done|].
  apply StronglySorted_cons in Hs as [Hx Hl].
  rewrite (IH Hl). destruct l as [|y l]; simpl; [done|].
  apply Forall_cons in Hx as [Hxy _].
  apply Z.leb_le in Hxy. now rewrite Hxy.
Qed.

Lemma elem_of_sort_by x l : x ∈ sort_by key l <-> x ∈ l.
Proof. now rewrite sort_by_perm. Qed.

End Sorting.

(** ** Dictionaries and the loop of the simulation *)

Section Walk.
Context {F : Type} {num : Number F}.
Implicit Types (d running : dict F) (rows : DataFrame F) (snap : Snapshot F).

Lemma dict_get_lookup d k default :
  dict_get d k default = from_option id default (dict_lookup d k).
Proof.
  induction d as [|[k' v] d IH]; simpl; [done|]. now case_bool_decide.
Qed.

Lemma dict_lookup_set d k v k' :
  dict_lookup (dict_set d k v) k' = if decide (k = k') then Some v else dict_lookup d k'.
Proof.
  induction d as [|[k0 v0] d IH]; simpl.
  - case_bool_decide; case_decide; congruence.
  - case_bool_decide; simpl.
    + subst. case_bool_decide; case_decide; congruence.
    + rewrite IH. repeat (case_bool_decide || case_decide); congruence.
Qed.

Lemma dict_lookup_elem_of d k : k ∈ map fst d <-> is_Some (dict_lookup d k).
Proof.
  induction d as [|[k' v] d IH]; simpl.
  - split; [intros H; inversion H | intros [? ?]; done].
  - rewrite elem_of_cons, IH. case_bool_decide; subst.
    + split; eauto.
    + split; [intros [?|?]; [congruence | done] | auto].
Qed.

Lemma dict_lookup_tabulate (f : string -> F) (ks : list string) k :
  k ∈ ks -> dict_lookup (map (fun b => (b, f b)) ks) k = Some (f k).
Proof.
  induction ks as [|k' ks IH]; intros Hin; [inversion Hin|].
  cbn [map dict_lookup]. case_bool_decide; subst; [done|].
  apply elem_of_cons in Hin as [?|?]; [congruence | auto].
Qed.

(** The balance columns of a snapshot are the running balances, one per
    book. *)
Lemma dict_lookup_snapshot t running b :
  dict_lookup (snap_balances (snapshot t running)) ("balance__" +:+ b) = dict_lookup running b.
Proof.
  unfold snapshot; simpl.
  induction running as [|[k v] running IH]; simpl; [done|].
  rewrite IH. repeat case_bool_decide; try done.
  - exfalso. apply H0. eapply (inj (String.app "balance__")). done.
  - congruence.
Qed.

Lemma elem_of_unique_from seen xs (b : string) :
  b ∈ unique_from seen xs <-> b ∈ xs /\ b ∉ seen.
Proof.
  revert seen. induction xs as [|x xs IH]; intros seen; simpl.
  - split; [intros H; inversion H | intros [H _]; inversion H].
  - case_bool_decide as Hx.
    + rewrite IH, elem_of_cons. split; [tauto|].
      intros [[->|?] ?]; [done | tauto].
    + rewrite elem_of_cons, IH, !elem_of_cons.
      destruct (decide (b = x)) as [->|]; tauto.
Qed.

Lemma elem_of_unique xs (b : string) : b ∈ unique xs <-> b ∈ xs.
Proof.
  unfold unique. rewrite elem_of_unique_from. split; [tauto|].
  intros ?; split; [done|]. intros H'; inversion H'.
Qed.

(** Every snapshot of the loop is the snapshot of one of the rows. *)
Lemma elem_of_walk running rows snap :
  snap ∈ walk running rows -> exists r, r ∈ rows /\ snap_date snap = date (bet r).
Proof.
  revert running. induction rows as [|r rows IH]; intros running; simpl.
  - intros H; inversion H.
  - rewrite elem_of_cons. intros [-> | Hin].
    + exists r. split; [constructor | done].
    + destruct (IH _ Hin) as (r' & Hr' & E). exists r'. split; [now constructor | done].
Qed.

(** A book of the running balances has a balance in every snapshot. *)
Lemma walk_has_book running rows snap b :
  snap ∈ walk running rows -> b ∈ map fst running ->
  is_Some (dict_lookup (snap_balances snap) ("balance__" +:+ b)).
Proof.
  revert running. induction rows as [|r rows IH]; intros running; simpl.
  - intros H; inversion H.
  - set (running' := dict_set running _ _).
    intros Hin Hb.
    assert (Hb' : b ∈ map fst running').
    { apply dict_lookup_elem_of. unfold running'. rewrite dict_lookup_set.
      case_decide; [eauto|]. now apply dict_lookup_elem_of. }
    apply elem_of_cons in Hin as [-> | Hin].
    + rewrite dict_lookup_snapshot. now apply dict_lookup_elem_of.
    + eapply IH; eassumption.
Qed.

(** While no row of a book has been reached, its balance is the one the
    loop started from. *)
Lemma walk_untouched running rows snap b :
  sorted_by (fun r => date (bet r)) rows ->
  snap ∈ walk running rows ->
  (forall r, r ∈ rows -> book (bet r) = b -> (snap_date snap < date (bet r))%Z) ->
  dict_lookup (snap_balances snap) ("balance__" +:+ b) = dict_lookup running b.
Proof.
  revert running. induction rows as [|r rows IH]; intros running Hs; simpl.
  - intros H; inversion H.
  - set (running' := dict_set running _ _).
    apply StronglySorted_cons in Hs as [Hr Hs].
    intros Hin Hlater.
    assert (Hne : book (bet r) <> b).
    { intros Hb. specialize (Hlater r (list_elem_of_here _ _) Hb).
      apply elem_of_cons in Hin as [-> | Hin]; [simpl in Hlater; lia|].
      destruct (elem_of_walk _ _ _ Hin) as (r' & Hr' & E).
      rewrite Forall_forall in Hr. specialize (Hr r' Hr'). simpl in Hr. lia. }
    assert (E' : dict_lookup running' b = dict_lookup running b).
    { unfold running'. rewrite dict_lookup_set. now rewrite decide_False. }
    apply elem_of_cons in Hin as [-> | Hin].
    + now rewrite dict_lookup_snapshot.
    + rewrite <- E'. apply IH; [done..|].
      intros r' Hr'. apply Hlater. now constructor.
Qed.

Lemma elem_of_keep_first seen rs snap : snap ∈ keep_first seen rs -> snap ∈ rs.
Proof.
  revert seen. induction rs as [|s rs IH]; intros seen; simpl; [done|].
  case_bool_decide.
  - intros H'. constructor. eapply IH, H'.
  - rewrite !elem_of_cons. intros [->|H']; [now left | right; eapply IH, H'].
Qed.

End Walk.

(** ** Properties of the metrics and of the simulation *)

Section Properties.
Context {F : Type} {num : Number F} {csv : Type}.
Implicit Types (w : world F csv) (df : DataFrame F) (l : loc).

(** On a ledger with a row the simulation returns, and its rows are the
    first snapshots of their dates, in order. *)
Lemma simulation_of_rows df :
  df <> [] ->
  let sorted := sort_by (fun r => date (bet r)) df in
  exists cols s rest,
    keep_first [] (walk (seed_running sorted) sorted) = s :: rest /\
    simulation_of df = Ok (mkSnapFrame cols (sort_by snap_date (s :: rest))).
Proof.
  intros Hne sorted. unfold simulation_of. cbv zeta. fold sorted.
  assert (Hs : sorted <> []).
  { intros E. apply Hne. apply Permutation_nil_r. rewrite <- E. unfold sorted.
    symmetry. apply sort_by_perm. }
  generalize (seed_running sorted). intros running.
  destruct sorted as [|r rs]; [done|]. cbn [walk].
  set (snap := snapshot _ _). set (rest := walk _ rs).
  exists (sf_columns (frame_of_rows (snap :: rest))), snap, (keep_first [snap_date snap] rest).
  split; [reflexivity|].
  unfold drop_duplicates_date. cbn [sf_rows frame_of_rows].
  assert (Hdate : "date" ∈ sf_columns (frame_of_rows (snap :: rest))).
  { unfold frame_of_rows. cbn. apply list_elem_of_here. }
  cbn [sf_columns frame_of_rows] in *.
  rewrite bool_decide_eq_true_2 by exact Hdate.
  unfold snap_sort_values_date. cbn [sf_columns sf_rows].
  rewrite bool_decide_eq_true_2 by exact Hdate.
  reflexivity.
Qed.

(** C10: on a ledger with at least one row, [bankroll_simulation] returns a
    frame with at least one snapshot, and every snapshot has a balance for
    every book of the ledger; a book all of whose bets are dated after the
    snapshot stands at its starting balance, which is 0 for a book that
    [STARTING_BANKROLLS] does not list. *)
Theorem bankroll_snapshot_has_every_book w l df :
  heap w !! l = Some df ->
  df <> [] ->
  exists out,
    fst (bankroll_simulation l w) = Ok out /\
    sf_rows out <> [] /\
    forall snap b,
      snap ∈ sf_rows out ->
      b ∈ map (fun r => book (bet r)) df ->
      exists v,
        dict_lookup (snap_balances snap) ("balance__" +:+ b) = Some v /\
        ((forall r, r ∈ df -> book (bet r) = b -> (snap_date snap < date (bet r))%Z) ->
         v = dict_get STARTING_BANKROLLS b (num_of_Z 0) /\
         (b ∉ map fst (STARTING_BANKROLLS (F := F)) -> v = num_of_Z 0)).
Proof.
  intros E Hne.
  rewrite (bankroll_simulation_run _ _ _ E). cbn [fst].
  destruct (simulation_of_rows df Hne) as (cols & s & rest & Hk & ->).
  set (sorted := sort_by (fun r => date (bet r)) df) in *.
  eexists. split; [reflexivity|]. cbn [sf_rows]. split.
  { intros Hnil. apply (f_equal length) in Hnil.
    rewrite (Permutation_length (sort_by_perm snap_date (s :: rest))) in Hnil.
    discriminate. }
  intros snap b Hsnap Hb.
  apply elem_of_sort_by in Hsnap. rewrite <- Hk in Hsnap.
  apply elem_of_keep_first in Hsnap.
  assert (Hb' : b ∈ map (fun r => book (bet r)) sorted).
  { unfold sorted. now rewrite sort_by_perm. }
  assert (Hseed : dict_lookup (seed_running sorted) b
                  = Some (dict_get STARTING_BANKROLLS b (num_of_Z 0))).
  { unfold seed_running.
    apply (dict_lookup_tabulate (fun b => dict_get STARTING_BANKROLLS b (num_of_Z 0))).
    now apply elem_of_unique. }
  assert (Hkey : b ∈ map fst (seed_running sorted)).
  { apply dict_lookup_elem_of. rewrite Hseed. eauto. }
  destruct (walk_has_book _ _ _ _ Hsnap Hkey) as [v Hv].
  exists v. split; [exact Hv|].
  intros Hlater.
  assert (Hv' : v = dict_get STARTING_BANKROLLS b (num_of_Z 0)).
  { assert (Some v = Some (dict_get STARTING_BANKROLLS b (num_of_Z 0))) as [= ->]; [|done].
    rewrite <- Hv, <- Hseed.
    apply (walk_untouched (seed_running sorted) sorted); [apply sort_by_sorted | done |].
    intros r Hr. apply Hlater. now apply elem_of_sort_by in Hr. }
  split; [exact Hv'|].
  intros Hnot. rewrite Hv', dict_get_lookup.
  destruct (dict_lookup STARTING_BANKROLLS b) eqn:Hl; [|done].
  exfalso. apply Hnot. apply dict_lookup_elem_of. eauto.
Qed.

(** C9: [compute_metrics] updates the frame it is given, in place: after
    the call the caller's reference holds a frame with the same rows and
    the same values in every column of the bets, whose [cumulative_profit]
    column is the running sum; no other object and no file changes.
    [bankroll_simulation] leaves the frame it is given, every other object
    and every file as they were. *)
Theorem compute_metrics_writes_in_place w l df :
  heap w !! l = Some df ->
  (exists df',
     snd (compute_metrics l w) = mkWorld (<[l := df']> (heap w)) (files w) /\
     heap (snd (compute_metrics l w)) !! l = Some df' /\
     map bet df' = map bet df /\
     map cumulative_profit df' = map Some (cumsum (map (fun r => profit (bet r)) df))) /\
  (heap (snd (bankroll_simulation l w)) !! l = Some df /\
   (forall l0 df0, heap w !! l0 = Some df0 ->
                   heap (snd (bankroll_simulation l w)) !! l0 = Some df0) /\
   files (snd (bankroll_simulation l w)) = files w).
Proof.
  intros E. split.
  - rewrite (compute_metrics_run _ _ _ E). cbn [snd heap].
    set (col := cumsum _).
    assert (Hcol : length col = length df) by (unfold col; now rewrite length_cumsum, length_map).
    exists (with_cumulative_profit df col). repeat split.
    + apply list_lookup_insert_eq. eapply lookup_lt_Some, E.
    + now apply bets_with_cumulative_profit.
    + unfold with_cumulative_profit. clear E. revert Hcol. generalize col. clear col.
      induction df as [|r df IH]; intros [|c col] Hcol; simpl in *; try done.
      f_equal. apply IH. lia.
  - rewrite (bankroll_simulation_run _ _ _ E). cbn [snd heap files].
    repeat split.
    + now apply lookup_app_l_Some.
    + intros l0 df0 E0. now apply lookup_app_l_Some.
Qed.

(** C6: [compute_metrics] returns on every ledger (no division raises).
    ROI is the total profit over the total staked, and 0 when the total
    staked is zero; the win rate is the number of rows with a positive
    profit over the number of rows, and 0 on the empty ledger, where the
    number of bets and the ROI are 0 as well. *)
Theorem compute_metrics_guards_division w l df :
  heap w !! l = Some df ->
  exists m,
    fst (compute_metrics l w) = Ok m /\
    total_bets m = length df /\
    total_staked m = sum (map (fun r => stake (bet r)) df) /\
    total_profit m = sum (map (fun r => profit (bet r)) df) /\
    (num_truth (total_staked m) = true -> roi m = num_div (total_profit m) (total_staked m)) /\
    (num_truth (total_staked m) = false -> roi m = num_of_Z 0) /\
    (df <> [] ->
     win_rate m =
       num_div (num_of_Z (Z.of_nat (count_gt0 (map (fun r => profit (bet r)) df))))
               (num_of_Z (Z.of_nat (length df)))) /\
    (df = [] -> total_bets m = O /\ roi m = num_of_Z 0 /\ win_rate m = num_of_Z 0).
Proof.
  intros E. rewrite (compute_metrics_run _ _ _ E). cbn [fst].
  exists (metrics_of df). unfold metrics_of. cbn [total_bets total_staked total_profit roi win_rate].
  split; [reflexivity|]. split; [reflexivity|]. split; [reflexivity|]. split; [reflexivity|].
  split; [now intros ->|]. split; [now intros ->|]. split.
  - intros Hne. destruct df; [done | reflexivity].
  - intros ->. cbn. unfold sum. cbn. now rewrite num_truth_zero.
Qed.

End Properties.

(** ** Properties of the odds conversion *)

Section OddsProperties.
Import Odds.
#[local] Open Scope float_scope.
Variable float_of_string : string -> option float.

(** A binary64 below zero is not above it, and its absolute value is not
    zero. *)
Lemma negative_float (o : float) :
  (o <? 0) = true -> (0 <? o) = false /\ (abs o =? 0) = false.
Proof.
  rewrite !FloatAxioms.ltb_spec, FloatAxioms.eqb_spec, FloatAxioms.abs_spec.
  change (Prim2SF 0) with (S754_zero false).
  destruct (Prim2SF o) as [[|]|[|]| |[|] m e]; cbn; intros H; try discriminate; auto.
Qed.

(** C5: for a numeric odds value [o] (what [float()] makes of the argument),
    [american_to_decimal] returns [1 + o/100] when [o > 0] and
    [1 + 100/|o|] when [o < 0]. *)
Theorem american_to_decimal_formula (v : pyobj) (o : float) :
  py_float float_of_string v = Ok o ->
  ((0 <? o) = true -> american_to_decimal float_of_string v = Ok (1 + o / 100)) /\
  ((o <? 0) = true -> american_to_decimal float_of_string v = Ok (1 + 100 / abs o)).
Proof.
  intros E. unfold american_to_decimal. rewrite E. split; intros H.
  - now rewrite H.
  - destruct (negative_float o H) as [-> Hz].
    unfold py_truediv. now rewrite Hz.
Qed.

(** The inputs [float()] rejects give NaN. *)
Lemma american_to_decimal_nan (v : pyobj) :
  py_float float_of_string v = Raise TypeError \/ py_float float_of_string v = Raise ValueError ->
  american_to_decimal float_of_string v = Ok nan.
Proof. unfold american_to_decimal. now intros [-> | ->]. Qed.

Lemma american_to_decimal_None : american_to_decimal float_of_string PyNone = Ok nan.
Proof. reflexivity. Qed.

Lemma american_to_decimal_non_numeric (s : string) :
  float_of_string s = None -> american_to_decimal float_of_string (PyStr s) = Ok nan.
Proof. intros E. unfold american_to_decimal, py_float. now rewrite E. Qed.

(** C4, at odds 0: the conversion does not return NaN, it raises
    [ZeroDivisionError], for the integer 0 and for both float zeros. *)
Theorem american_to_decimal_zero_raises :
  american_to_decimal float_of_string (PyInt 0) = Raise ZeroDivisionError /\
  american_to_decimal float_of_string (PyFloat 0) = Raise ZeroDivisionError /\
  american_to_decimal float_of_string (PyFloat (-0)) = Raise ZeroDivisionError.
Proof. repeat split; vm_compute; reflexivity. Qed.

End OddsProperties.

(** ** The code on particular ledgers *)

(** C1, on a ledger entered out of date order: [compute_metrics] sums in
    the order of the ledger (1, then 1 + 2 = 3), where the running sum by
    date gives the later bet 2 + 1 = 3 and the earlier one 2. *)
Theorem cumulative_profit_follows_ledger_order :
  (map cumulative_profit <$> heap (snd (compute_metrics 0%nat (one_ledger out_of_order_ledger))) !! 0%nat)
    = Some [Some 1%float; Some 3%float] /\
  cumulative_profit_by_date out_of_order_ledger = [Some 3%float; Some 2%float].
Proof. split; vm_compute; reflexivity. Qed.

(** C2, on two bets of one day (profits 5 and 7 on FanDuel): the row
    [bankroll_simulation] keeps for the day is the snapshot after the first
    bet (205), where the last snapshot of the day, which has both bets, is
    212. *)
Theorem same_day_snapshot_is_the_first :
  fst (bankroll_simulation 0%nat (one_ledger same_day_ledger))
    = Ok (mkSnapFrame ["date"; "balance__FanDuel"]
            [mkSnapshot 1 [("balance__FanDuel", 205%float)]]) /\
  (let sorted := sort_by (fun r => date (bet r)) same_day_ledger in
   keep_last (walk (seed_running sorted) sorted))
    = [mkSnapshot 1 [("balance__FanDuel", 212%float)]].
Proof. split; vm_compute; reflexivity. Qed.

(** C3: on the empty ledger, as [load_bets] returns it when there is no
    file, [bankroll_simulation] raises [KeyError: 'date']. *)
Theorem bankroll_simulation_empty_raises :
  fst (bankroll_simulation 0%nat (one_ledger ([] : DataFrame float))) = Raise (KeyError "date") /\
  fst ((let* df := load_bets (fun _ => Ok []) CSV_PATH in bankroll_simulation df) fresh_start)
    = Raise (KeyError "date").
Proof. split; vm_compute; reflexivity. Qed.

(** ** The example of the specification *)

Section TwoBets.
Context {F : Type} {num : Number F}.

(** The simulation of a ledger of two FanDuel bets, the first dated before
    the second. *)
Lemma two_bets_simulation (r1 r2 : Row F) :
  book (bet r1) = "FanDuel" -> book (bet r2) = "FanDuel" ->
  (date (bet r1) < date (bet r2))%Z ->
  simulation_of [r1; r2] =
    Ok (mkSnapFrame ["date"; "balance__FanDuel"]
          [mkSnapshot (date (bet r1))
             [("balance__FanDuel", num_add (num_of_Z 200) (profit (bet r1)))];
           mkSnapshot (date (bet r2))
             [("balance__FanDuel",
               num_add (num_add (num_of_Z 200) (profit (bet r1))) (profit (bet r2)))]]).
Proof.
  intros B1 B2 Hlt.
  assert (Hle : (date (bet r1) <=? date (bet r2))%Z = true) by (apply Z.leb_le; lia).
  unfold simulation_of. cbv zeta.
  assert (Hsort : sort_by (fun r => date (bet r)) [r1; r2] = [r1; r2]).
  { cbn. now rewrite Hle. }
  rewrite Hsort.
  assert (Hseed : seed_running [r1; r2] = [("FanDuel", num_of_Z 200)]).
  { unfold seed_running. cbn [map]. rewrite B1, B2. reflexivity. }
  rewrite Hseed. cbn [walk]. rewrite B1, B2.
  set (s1 := snapshot (date (bet r1)) _). set (s2 := snapshot (date (bet r2)) _).
  assert (E1 : s1 = mkSnapshot (date (bet r1))
                      [("balance__FanDuel", num_add (num_of_Z 200) (profit (bet r1)))])
    by reflexivity.
  assert (E2 : s2 = mkSnapshot (date (bet r2))
                      [("balance__FanDuel",
                        num_add (num_add (num_of_Z 200) (profit (bet r1))) (profit (bet r2)))])
    by reflexivity.
  rewrite E1, E2. clear s1 s2 E1 E2.
  unfold drop_duplicates_date, frame_of_rows. cbn [sf_rows sf_columns].
  assert (Hcols : unique (concat (map (snapshot_keys (F := F))
                    [mkSnapshot (date (bet r1))
                       [("balance__FanDuel", num_add (num_of_Z 200) (profit (bet r1)))];
                     mkSnapshot (date (bet r2))
                       [("balance__FanDuel",
                         num_add (num_add (num_of_Z 200) (profit (bet r1))) (profit (bet r2)))]]))
                  = ["date"; "balance__FanDuel"]) by reflexivity.
  rewrite Hcols.
  rewrite (bool_decide_eq_true_2 ("date" ∈ ["date"; "balance__FanDuel"])) by constructor.
  cbn [keep_first snap_date].
  rewrite (bool_decide_eq_false_2 (date (bet r1) ∈ [])) by (intros H; inversion H).
  rewrite (bool_decide_eq_false_2 (date (bet r2) ∈ [date (bet r1)])).
  2:{ rewrite list_elem_of_singleton. lia. }
  unfold snap_sort_values_date. cbn [sf_columns sf_rows].
  rewrite (bool_decide_eq_true_2 ("date" ∈ ["date"; "balance__FanDuel"])) by constructor.
  cbn [sort_by foldr insert_by snap_date]. now rewrite Hle.
Qed.

(** The metrics of a ledger of two bets. *)
Lemma two_bets_metrics (r1 r2 : Row F) :
  metrics_of [r1; r2] =
    let ts := sum [stake (bet r1); stake (bet r2)] in
    let tp := sum [profit (bet r1); profit (bet r2)] in
    mkMetrics 2 ts tp
      (if num_truth ts then num_div tp ts else num_of_Z 0)
      (num_div (num_of_Z (Z.of_nat (count_gt0 [profit (bet r1); profit (bet r2)])))
         (num_of_Z 2)).
Proof. reflexivity. Qed.

End TwoBets.


(** The same ledger in binary64, the arithmetic of the running code: total
    staked, win rate and the balance are the values of the example; total
    profit and ROI are the binary64 results of [9.09 - 10] and of its
    quotient by 20, which differ from -0.91 and -0.0455 by less than
    [1e-15]. *)
Lemma two_bet_example_binary64 {csv : Type} (w : world float csv) (l : loc) (r1 r2 : Row float) :
  heap w !! l = Some [r1; r2] ->
  stake (bet r1) = 10%float -> profit (bet r1) = 9.09%float -> book (bet r1) = "FanDuel" ->
  stake (bet r2) = 10%float -> profit (bet r2) = (-10)%float -> book (bet r2) = "FanDuel" ->
  (date (bet r1) < date (bet r2))%Z ->
  (exists m,
     fst (compute_metrics l w) = Ok m /\
     total_bets m = 2%nat /\
     total_staked m = 20%float /\
     total_profit m = (9.09 + -10)%float /\
     (abs (total_profit m - -0.91) <? 1e-15)%float = true /\
     roi m = ((9.09 + -10) / 20)%float /\
     (abs (roi m - -0.0455) <? 1e-15)%float = true /\
     win_rate m = 0.5%float) /\
  (exists out snap,
     fst (bankroll_simulation l w) = Ok out /\
     snap ∈ sf_rows out /\
     snap_date snap = date (bet r2) /\
     dict_lookup (snap_balances snap) "balance__FanDuel" = Some 199.09%float).
Proof.
  intros E S1 P1 B1 S2 P2 B2 Hlt. split.
  - rewrite (compute_metrics_run _ _ _ E). cbn [fst].
    eexists. split; [reflexivity|].
    rewrite two_bets_metrics, S1, P1, S2, P2.
    repeat split; vm_compute; reflexivity.
  - rewrite (bankroll_simulation_run _ _ _ E). cbn [fst].
    rewrite (two_bets_simulation r1 r2 B1 B2 Hlt), P1, P2.
    eexists _, _. split; [reflexivity|]. cbn [sf_rows].
    split; [apply list_elem_of_further, list_elem_of_here|].
    split; [reflexivity|]. vm_compute; reflexivity.
Qed.

(** ** Cumulative profit on a ledger in date order *)

Section DateOrder.
Context {F : Type} {num : Number F}.

Lemma sorted_by_zip {A B} (key : B -> Z) (ixs : list A) (l : list B) :
  sorted_by key l -> sorted_by (fun ir => key (snd ir)) (zip ixs l).
Proof.
  unfold sorted_by. revert ixs. induction l as [|x l IH]; intros [|i ixs] Hs; simpl;
    try constructor.
  - apply StronglySorted_cons in Hs as [_ Hs]. now apply IH.
  - apply StronglySorted_cons in Hs as [Hx _].
    rewrite Forall_forall in Hx. apply Forall_forall. intros [j y] Hin. simpl.
    apply Hx. eapply elem_of_zip_r, Hin.
Qed.

Lemma assoc_nat_seq (start : nat) (sums : list F) :
  map (fun i => assoc_nat i (zip (seq start (length sums)) sums)) (seq start (length sums))
  = map Some sums.
Proof.
  revert start. induction sums as [|x sums IH]; intros start; [done|].
  cbn [length seq zip zip_with map assoc_nat].
  rewrite bool_decide_eq_true_2 by done. f_equal.
  rewrite <- (IH (S start)). apply map_ext_in. intros i Hi.
  apply in_seq in Hi. rewrite bool_decide_eq_false_2 by lia. reflexivity.
Qed.

(** Where the ledger is in date order already, the running sum of
    [compute_metrics] is the running sum by date of the specification. *)
Lemma cumulative_profit_by_date_sorted (df : DataFrame F) :
  sorted_by (fun r => date (bet r)) df ->
  cumulative_profit_by_date df = map Some (cumsum (map (fun r => profit (bet r)) df)).
Proof.
  intros Hs. unfold cumulative_profit_by_date. cbv zeta.
  rewrite (sort_by_id (fun ir : nat * Row F => date (bet (snd ir))));
    [|now apply (sorted_by_zip (fun r => date (bet r)))].
  assert (Hlen : length (seq 0 (length df)) = length df) by apply length_seq.
  rewrite fst_zip by lia.
  rewrite <- (map_map snd (fun r => profit (bet r))), snd_zip by lia.
  set (sums := cumsum _).
  assert (Hsums : length sums = length df) by (unfold sums; now rewrite length_cumsum, length_map).
  rewrite <- Hsums. apply assoc_nat_seq.
Qed.

End DateOrder.

(** ** Appending a bet and loading the ledger again *)

Section Persistence.
Context {F : Type} {num : Number F} {csv : Type}.
Implicit Types (w : world F csv) (L : DataFrame F) (R : BetRecord F).

Variable to_csv : DataFrame F -> csv.
Variable parse_csv : csv -> outcome (DataFrame F).

(** Equality of two frames field by field, up to what the text of the file
    does not keep (the format of a date, the last digits of a number). *)
Variable same_fields : DataFrame F -> DataFrame F -> Prop.

(** The contract of the persisted file (section 6 of the specification):
    what is written reads back with equivalent field values. *)
Hypothesis csv_round_trip :
  forall L, exists L', parse_csv (to_csv L) = Ok L' /\ same_fields L' L.

(** Without the file, [load_bets] returns a new, empty ledger. *)
Lemma load_bets_no_file w path :
  files w !! path = None ->
  load_bets parse_csv path w = (Ok (length (heap w)), mkWorld (heap w ++ [[]]) (files w)).
Proof.
  intros E. unfold load_bets, except_FileNotFoundError, read_csv, bind, read_file.
  now rewrite E.
Qed.

Lemma add_bet_run w l L R :
  heap w !! l = Some L ->
  add_bet to_csv l R w =
    (Ok (length (heap w)),
     mkWorld (heap w ++ [L ++ [mkRow R None]])
       (<[CSV_PATH := to_csv (L ++ [mkRow R None])]> (files w))).
Proof.
  intros E. unfold add_bet, concat_bet.
  erewrite bind_ok; cycle 1.
  { erewrite bind_ok by (apply deref_ok, E). reflexivity. }
  set (w1 := mkWorld _ _).
  assert (E1 : heap w1 !! length (heap w) = Some (L ++ [mkRow R None])).
  { unfold w1; simpl. apply list_lookup_middle. reflexivity. }
  unfold save_bets.
  erewrite bind_ok; cycle 1.
  { erewrite bind_ok by (apply deref_ok, E1). reflexivity. }
  reflexivity.
Qed.


End Persistence.

(** ** The theorems at particular inputs *)

(** [american_to_decimal_formula] at the odds +150 and -110. *)
Lemma american_to_decimal_formula_witness :
  Odds.american_to_decimal (fun _ => None) (Odds.PyInt 150) = Ok 2.5%float /\
  Odds.american_to_decimal (fun _ => None) (Odds.PyInt (-110)) = Ok (1 + 100 / 110)%float.
Proof.
  split.
  - apply (american_to_decimal_formula (fun _ => None) (Odds.PyInt 150) 150%float);
      reflexivity.
  - apply (american_to_decimal_formula (fun _ => None) (Odds.PyInt (-110)) (-110)%float);
      reflexivity.
Defined.

(** [compute_metrics_guards_division] on the example ledger. *)
Lemma compute_metrics_guards_division_witness :
  exists m,
    fst (compute_metrics 0%nat (one_ledger example_ledger_float)) = Ok m /\
    total_bets m = 2%nat /\ win_rate m = 0.5%float.
Proof.
  destruct (compute_metrics_guards_division (one_ledger example_ledger_float) 0%nat
              example_ledger_float eq_refl)
    as (m & Hm & Hbets & _ & _ & _ & _ & Hwin & _).
  exists m. split; [exact Hm|]. split; [exact Hbets|].
  rewrite Hwin by discriminate. vm_compute. reflexivity.
Defined.



(** [compute_metrics_writes_in_place] on the ledger entered out of order. *)
Lemma compute_metrics_writes_in_place_witness :
  (exists df',
     heap (snd (compute_metrics 0%nat (one_ledger out_of_order_ledger))) !! 0%nat = Some df' /\
     map bet df' = map bet out_of_order_ledger /\
     map cumulative_profit df' = [Some 1%float; Some 3%float]) /\
  heap (snd (bankroll_simulation 0%nat (one_ledger out_of_order_ledger))) !! 0%nat
    = Some out_of_order_ledger.
Proof.
  destruct (compute_metrics_writes_in_place (one_ledger out_of_order_ledger) 0%nat
              out_of_order_ledger eq_refl)
    as [(df' & _ & Hl & Hb & Hc) (Hs & _ & _)].
  split; [|exact Hs].
  exists df'. split; [exact Hl|]. split; [exact Hb|]. exact Hc.
Defined.

(** [bankroll_snapshot_has_every_book] on the ledger of three books. *)
Lemma bankroll_snapshot_has_every_book_witness :
  exists out,
    fst (bankroll_simulation 0%nat (one_ledger three_book_ledger)) = Ok out /\
    sf_rows out <> [] /\
    forall snap b,
      snap ∈ sf_rows out ->
      b ∈ map (fun r => book (bet r)) three_book_ledger ->
      exists v,
        dict_lookup (snap_balances snap) ("balance__" +:+ b) = Some v /\
        ((forall r, r ∈ three_book_ledger -> book (bet r) = b ->
                    (snap_date snap < date (bet r))%Z) ->
         v = dict_get STARTING_BANKROLLS b (num_of_Z 0) /\
         (b ∉ map fst (STARTING_BANKROLLS (F := float)) -> v = num_of_Z 0)).
Proof.
  apply (bankroll_snapshot_has_every_book (one_ledger three_book_ledger) 0%nat
           three_book_ledger).
  - reflexivity.
  - discriminate.
Defined.

(** ** More on the odds conversion *)

Section OddsFailures.
Import Odds.
#[local] Open Scope float_scope.
Variable float_of_string : string -> option float.

(** A binary64 that is neither above zero nor zero has a nonzero absolute
    value; a zero is not above zero and has a zero absolute value. *)
Lemma abs_nonzero_float (o : float) :
  (o =? 0) = false -> (abs o =? 0) = false.
Proof.
  rewrite !FloatAxioms.eqb_spec, FloatAxioms.abs_spec.
  change (Prim2SF 0) with (S754_zero false).
  destruct (Prim2SF o) as [[|]|[|]| |[|] m e]; cbn; intros H; try discriminate; auto.
Qed.

Lemma zero_float (o : float) :
  (o =? 0) = true -> (0 <? o) = false /\ (abs o =? 0) = true.
Proof.
  rewrite !FloatAxioms.eqb_spec, FloatAxioms.ltb_spec, FloatAxioms.abs_spec.
  change (Prim2SF 0) with (S754_zero false).
  destruct (Prim2SF o) as [[|]|[|]| |[|] m e]; cbn; intros H; try discriminate; auto.
Qed.

(** What [american_to_decimal] does on an argument that [float()] accepts. *)
Lemma american_to_decimal_on_float (v : pyobj) (o : float) :
  py_float float_of_string v = Ok o ->
  american_to_decimal float_of_string v =
    if o =? 0 then Raise ZeroDivisionError
    else if 0 <? o then Ok (1 + o / 100) else Ok (1 + 100 / abs o).
Proof.
  intros E. unfold american_to_decimal. rewrite E.
  destruct (o =? 0) eqn:Hz.
  - destruct (zero_float o Hz) as [-> Ha]. unfold py_truediv. now rewrite Ha.
  - destruct (0 <? o); [done|].
    unfold py_truediv. now rewrite (abs_nonzero_float o Hz).
Qed.

(** X1: the exceptions of [american_to_decimal]. It raises
    [ZeroDivisionError] exactly when [float()] turns the argument into a
    zero, [OverflowError] exactly when the argument is an integer beyond the
    range of a float, and nothing else. *)
Theorem american_to_decimal_raises (v : pyobj) (e : exn) :
  american_to_decimal float_of_string v = Raise e <->
  (e = ZeroDivisionError /\
   exists o, py_float float_of_string v = Ok o /\ (o =? 0) = true) \/
  (e = OverflowError /\ exists z, v = PyInt z /\ float_of_Z z = None).
Proof.
  destruct (py_float float_of_string v) as [o|e'] eqn:E.
  - rewrite (american_to_decimal_on_float v o E). split.
    + destruct (o =? 0) eqn:Hz.
      * intros [= <-]. left. split; [done|]. exists o. done.
      * destruct (0 <? o); discriminate.
    + intros [[-> (o' & [= <-] & ->)] | [_ (z & -> & Hz)]]; [done|].
      simpl in E. rewrite Hz in E. discriminate.
  - unfold american_to_decimal. rewrite E.
    destruct v as [|z|x|s]; simpl in E.
    + injection E as <-. split; [discriminate|].
      intros [[_ (o & ? & _)] | [_ (z & ? & _)]]; discriminate.
    + destruct (float_of_Z z) eqn:Hz; [discriminate|]. injection E as <-. split.
      * intros [= <-]. right. split; [done|]. exists z. done.
      * intros [[_ (o & ? & _)] | [-> _]]; [discriminate | done].
    + discriminate.
    + destruct (float_of_string s); [discriminate|]. injection E as <-.
      split; [discriminate|].
      intros [[_ (o & ? & _)] | [_ (z & ? & _)]]; discriminate.
Qed.

End OddsFailures.

(** ** More on the metrics *)

Section MetricsAgain.
Context {F : Type} {num : Number F} {csv : Type}.
Implicit Types (w : world F csv) (df : DataFrame F) (l : loc).

(** The metrics read the columns of the bets only. *)
Lemma metrics_of_bets df df' : map bet df = map bet df' -> metrics_of df = metrics_of df'.
Proof.
  intros E. unfold metrics_of.
  assert (Hl : length df = length df').
  { rewrite <- (length_map bet df), E. apply length_map. }
  assert (Hc : forall A (c : BetRecord F -> A),
             map (fun r => c (bet r)) df = map (fun r => c (bet r)) df').
  { intros A c. rewrite <- !(map_map bet c). now rewrite E. }
  now rewrite Hl, !Hc.
Qed.

Lemma with_cumulative_profit_again df col col' :
  length col = length df ->
  with_cumulative_profit (with_cumulative_profit df col) col' = with_cumulative_profit df col'.
Proof.
  unfold with_cumulative_profit. revert col col'.
  induction df as [|r df IH]; intros [|c col] [|c' col'] E; simpl in *; try done.
  f_equal. apply IH. lia.
Qed.

(** X2: [compute_metrics] is idempotent: a second call on the same frame
    returns the same metrics and leaves the store as the first call left
    it. *)
Theorem compute_metrics_idempotent w l df :
  heap w !! l = Some df ->
  compute_metrics l (snd (compute_metrics l w)) = compute_metrics l w.
Proof.
  intros E. rewrite (compute_metrics_run _ _ _ E). cbn [snd].
  set (col := cumsum _).
  assert (Hcol : length col = length df) by (unfold col; now rewrite length_cumsum, length_map).
  set (df1 := with_cumulative_profit df col). set (w1 := mkWorld _ _).
  assert (E1 : heap w1 !! l = Some df1).
  { unfold w1; simpl. apply list_lookup_insert_eq. eapply lookup_lt_Some, E. }
  rewrite (compute_metrics_run _ _ _ E1).
  assert (Hb : map bet df1 = map bet df) by now apply bets_with_cumulative_profit.
  rewrite (metrics_of_bets df1 df Hb).
  unfold df1 at 2. rewrite column_with_cumulative_profit by done. fold col.
  unfold df1 at 1. rewrite with_cumulative_profit_again by done. fold df1.
  unfold w1. cbn [heap files]. now rewrite list_insert_insert_eq.
Qed.

Lemma count_gt0_perm (xs ys : list F) : xs ≡ₚ ys -> count_gt0 xs = count_gt0 ys.
Proof.
  unfold count_gt0. induction 1 as [|x xs ys _ IH|x y xs|xs ys zs _ IH1 _ IH2]; simpl.
  - done.
  - destruct (num_gt0 x); simpl; now rewrite IH.
  - destruct (num_gt0 x), (num_gt0 y); reflexivity.
  - now rewrite IH1.
Qed.

(** X3: the number of bets and the win rate do not depend on the order of
    the rows, in any arithmetic. *)
Theorem win_rate_order_independent w l df w' l' df' :
  heap w !! l = Some df ->
  heap w' !! l' = Some df' ->
  df ≡ₚ df' ->
  exists m m',
    fst (compute_metrics l w) = Ok m /\
    fst (compute_metrics l' w') = Ok m' /\
    total_bets m = total_bets m' /\
    win_rate m = win_rate m'.
Proof.
  intros E E' Hp.
  rewrite (compute_metrics_run _ _ _ E), (compute_metrics_run _ _ _ E'). cbn [fst].
  exists (metrics_of df), (metrics_of df'). split; [done|]. split; [done|].
  unfold metrics_of. cbv zeta. cbn [total_bets win_rate].
  rewrite (Permutation_length Hp).
  rewrite (count_gt0_perm _ _ (Permutation_map (fun r => profit (bet r)) Hp)).
  done.
Qed.

End MetricsAgain.

(** ** The metrics in exact arithmetic *)

Section MetricsQ.
Context {csv : Type}.
Implicit Types (w : world Q csv) (df : DataFrame Q) (l : loc).
#[local] Open Scope Q_scope.

Lemma fold_left_Qplus (xs : list Q) (a : Q) :
  fold_left Qplus xs a == a + fold_right Qplus 0 xs.
Proof.
  revert a. induction xs as [|x xs IH]; intros a; simpl.
  - ring.
  - rewrite IH. ring.
Qed.

Lemma fillna0_Q (xs : list Q) : map (fillna0 (F := Q)) xs = xs.
Proof. induction xs as [|x xs IH]; simpl; [done|]. now rewrite IH. Qed.

Lemma sum_Q (xs : list Q) : sum xs == fold_right Qplus 0 xs.
Proof. unfold sum. rewrite fillna0_Q, fold_left_Qplus. simpl. ring. Qed.

Lemma sum_Q_perm (xs ys : list Q) : xs ≡ₚ ys -> sum xs == sum ys.
Proof.
  intros Hp. rewrite !sum_Q.
  induction Hp as [|x xs ys _ IH|x y xs|xs ys zs _ IH1 _ IH2]; simpl.
  - reflexivity.
  - now rewrite IH.
  - ring.
  - now rewrite IH1.
Qed.

Lemma Qeq_bool_comp (x y : Q) : x == y -> Qeq_bool x 0 = Qeq_bool y 0.
Proof.
  intros E. destruct (Qeq_bool x 0) eqn:Hx, (Qeq_bool y 0) eqn:Hy; try done.
  - apply Qeq_bool_iff in Hx. apply Qeq_bool_neq in Hy. exfalso. apply Hy. now rewrite <- E.
  - apply Qeq_bool_iff in Hy. apply Qeq_bool_neq in Hx. exfalso. apply Hx. now rewrite E.
Qed.


Lemma count_gt0_le (xs : list Q) : (count_gt0 xs <= length xs)%nat.
Proof. unfold count_gt0. apply List.filter_length_le. Qed.


End MetricsQ.

(** ** The last point of the cumulative profit *)

Section LastCumulative.
Context {csv : Type}.
Implicit Types (w : world Q csv) (df : DataFrame Q) (l : loc).
#[local] Open Scope Q_scope.

Lemma zip_with_snd {A B} (xs : list A) (ys : list B) :
  length xs = length ys -> zip_with (fun _ y => y) xs ys = ys.
Proof.
  revert ys. induction xs as [|x xs IH]; intros [|y ys] E; simpl in *; try done.
  f_equal. apply IH. lia.
Qed.

Lemma cumsum_Q (xs : list Q) : cumsum xs = np_cumsum xs.
Proof.
  unfold cumsum. rewrite fillna0_Q. cbn [num_isna Q_Number].
  apply zip_with_snd. now rewrite length_np_cumsum.
Qed.

Lemma last_cumsum_from (x : Q) (xs : list Q) :
  last (x :: cumsum_from x xs) = Some (fold_left Qplus xs x).
Proof.
  revert x. induction xs as [|y xs IH]; intros x; [done|].
  cbn [cumsum_from fold_left]. exact (IH (x + y)).
Qed.

Lemma cumulative_profit_with (df : DataFrame Q) (col : list Q) :
  length col = length df ->
  cumulative_profit <$> with_cumulative_profit df col = Some <$> col.
Proof.
  unfold with_cumulative_profit. revert col.
  induction df as [|r df IH]; intros [|c col] E; simpl in *; try done.
  f_equal. apply IH. lia.
Qed.


End LastCumulative.


(** ** The rows of the simulation *)

Section SimulationRows.
Context {F : Type} {num : Number F}.
Implicit Types (running : dict F) (rows pre post : DataFrame F) (snap : Snapshot F).

Lemma walk_cons running r rows :
  walk running (r :: rows) =
    snapshot (date (bet r)) (step_running running r) :: walk (step_running running r) rows.
Proof. reflexivity. Qed.

Lemma dates_of_walk running rows :
  map snap_date (walk running rows) = map (fun r => date (bet r)) rows.
Proof.
  revert running. induction rows as [|r rows IH]; intros running; [done|].
  rewrite walk_cons. cbn [map snap_date snapshot]. now rewrite IH.
Qed.

Lemma running_after_snoc running pre r :
  running_after running (pre ++ [r]) = step_running (running_after running pre) r.
Proof. unfold running_after. now rewrite fold_left_app. Qed.

(** A snapshot that [drop_duplicates] keeps is the snapshot of the first row
    of its date. *)
Lemma keep_first_walk seen running rows snap :
  snap ∈ keep_first seen (walk running rows) ->
  exists pre r post,
    rows = pre ++ r :: post /\
    snap = snapshot (date (bet r)) (running_after running (pre ++ [r])) /\
    (date (bet r) ∉ map (fun r => date (bet r)) pre) /\
    date (bet r) ∉ seen.
Proof.
  revert seen running. induction rows as [|r0 rows IH]; intros seen running.
  - intros H; inversion H.
  - rewrite walk_cons. cbn [keep_first snap_date snapshot].
    case_bool_decide as Hseen.
    + intros Hin. destruct (IH _ _ Hin) as (pre & r & post & -> & -> & Hpre & Hs).
      exists (r0 :: pre), r, post. split; [done|]. split; [done|]. split; [|done].
      cbn [map]. rewrite not_elem_of_cons. split; [|done]. intros E. apply Hs. now rewrite E.
    + rewrite elem_of_cons. intros [-> | Hin].
      * exists [], r0, rows. split; [done|]. split; [done|]. split; [|done].
        intros H; inversion H.
      * destruct (IH _ _ Hin) as (pre & r & post & -> & -> & Hpre & Hs).
        apply not_elem_of_cons in Hs as [Hne Hs].
        exists (r0 :: pre), r, post. split; [done|]. split; [done|]. split; [|done].
        cbn [map]. rewrite not_elem_of_cons. done.
Qed.

(** The balance of a book after a run of the loop. *)
Lemma running_after_lookup running rows b v :
  dict_lookup running b = Some v ->
  dict_lookup (running_after running rows) b =
    Some (fold_left num_add
            (map (fun r => profit (bet r)) (filter (fun r => book (bet r) = b) rows)) v).
Proof.
  revert running v. induction rows as [|r rows IH]; intros running v Hv; [done|].
  cbn [running_after fold_left]. fold (running_after (step_running running r) rows).
  destruct (decide (book (bet r) = b)) as [Hb|Hb].
  - rewrite filter_cons_True by done. cbn [map fold_left].
    apply IH. unfold step_running. rewrite dict_lookup_set, decide_True by done.
    rewrite Hb, dict_get_lookup, Hv. done.
  - rewrite filter_cons_False by done.
    apply IH. unfold step_running. rewrite dict_lookup_set, decide_False by done. done.
Qed.

Lemma filter_all {A} (P : A -> Prop) `{forall x, Decision (P x)} (l : list A) :
  Forall P l -> filter P l = l.
Proof.
  induction 1 as [|x l Hx _ IH]; [done|]. rewrite filter_cons_True by done. now rewrite IH.
Qed.

Lemma filter_none {A} (P : A -> Prop) `{forall x, Decision (P x)} (l : list A) :
  Forall (fun x => ~ P x) l -> filter P l = [].
Proof.
  induction 1 as [|x l Hx _ IH]; [done|]. now rewrite filter_cons_False by done.
Qed.

Lemma sorted_split pre (r : Row F) post :
  sorted_by (fun r => date (bet r)) (pre ++ r :: post) ->
  Forall (fun x => (date (bet x) <= date (bet r))%Z) pre /\
  Forall (fun x => (date (bet r) <= date (bet x))%Z) post.
Proof.
  unfold sorted_by. intros Hs.
  apply StronglySorted_app in Hs as (Hcross & Hpre & Hpost).
  apply StronglySorted_cons in Hpost as [Hr _]. split; [|exact Hr].
  apply Forall_forall. intros x Hx.
  exact (Hcross x r Hx (list_elem_of_here _ _)).
Qed.

(** In a frame in date order, the rows before the first row of a date are
    the rows of earlier dates. *)
Lemma sorted_first_of_day pre (r : Row F) post :
  sorted_by (fun r => date (bet r)) (pre ++ r :: post) ->
  date (bet r) ∉ map (fun r => date (bet r)) pre ->
  first_of_day (date (bet r)) (pre ++ r :: post) = pre ++ [r].
Proof.
  intros Hs Hnot. destruct (sorted_split _ _ _ Hs) as [Hle Hge].
  assert (Hlt : Forall (fun x => (date (bet x) < date (bet r))%Z) pre).
  { rewrite Forall_forall in Hle. apply Forall_forall. intros x Hx.
    assert (date (bet x) <> date (bet r)).
    { intros E. apply Hnot. rewrite <- E.
      exact (list_elem_of_fmap_2 (fun r => date (bet r)) _ _ Hx). }
    specialize (Hle x Hx). simpl in Hle. lia. }
  unfold first_of_day. rewrite !filter_app.
  rewrite (filter_all _ pre Hlt).
  rewrite (filter_cons_False _ r) by lia.
  rewrite (filter_none (fun x => (date (bet x) < date (bet r))%Z) post)
    by (eapply Forall_impl; [exact Hge|]; simpl; intros; lia).
  rewrite (filter_none (fun x => date (bet x) = date (bet r)) pre)
    by (eapply Forall_impl; [exact Hlt|]; simpl; intros; lia).
  rewrite (filter_cons_True _ r) by done.
  now rewrite app_nil_r.
Qed.

(** With one bet per date at most, they are the rows up to that date. *)
Lemma sorted_up_to_day pre (r : Row F) post :
  sorted_by (fun r => date (bet r)) (pre ++ r :: post) ->
  NoDup (map (fun r => date (bet r)) (pre ++ r :: post)) ->
  up_to_day (date (bet r)) (pre ++ r :: post) = pre ++ [r].
Proof.
  intros Hs Hnd. destruct (sorted_split _ _ _ Hs) as [Hle Hge].
  rewrite map_app in Hnd. apply NoDup_app in Hnd as (_ & _ & Hnd).
  cbn [map] in Hnd. apply NoDup_cons in Hnd as [Hnot _].
  assert (Hgt : Forall (fun x => ~ (date (bet x) <= date (bet r))%Z) post).
  { rewrite Forall_forall in Hge. apply Forall_forall. intros x Hx.
    assert (date (bet x) <> date (bet r)).
    { intros E. apply Hnot. rewrite <- E.
      exact (list_elem_of_fmap_2 (fun r => date (bet r)) _ _ Hx). }
    specialize (Hge x Hx). simpl in Hge. lia. }
  unfold up_to_day. rewrite filter_app, (filter_all _ pre Hle).
  rewrite filter_cons_True by lia. now rewrite (filter_none _ post Hgt).
Qed.

(** The balance of a book in the snapshot that is kept for a date. *)
Lemma kept_snapshot_balance (sorted : DataFrame F) snap b :
  sorted_by (fun r => date (bet r)) sorted ->
  snap ∈ keep_first [] (walk (seed_running sorted) sorted) ->
  b ∈ map (fun r => book (bet r)) sorted ->
  exists pre r post,
    sorted = pre ++ r :: post /\
    snap_date snap = date (bet r) /\
    (date (bet r) ∉ map (fun r => date (bet r)) pre) /\
    dict_lookup (snap_balances snap) ("balance__" +:+ b) = Some (balance_after b (pre ++ [r])).
Proof.
  intros Hs Hin Hb.
  destruct (keep_first_walk _ _ _ _ Hin) as (pre & r & post & E & -> & Hpre & _).
  exists pre, r, post. split; [exact E|]. split; [done|]. split; [exact Hpre|].
  rewrite dict_lookup_snapshot. unfold balance_after.
  apply running_after_lookup. unfold seed_running.
  apply (dict_lookup_tabulate (fun b => dict_get STARTING_BANKROLLS b (num_of_Z 0))).
  now apply elem_of_unique.
Qed.

Lemma keep_first_dates seen (rs : list (Snapshot F)) :
  NoDup (map snap_date (keep_first seen rs)) /\
  forall d, d ∈ map snap_date (keep_first seen rs) <-> d ∈ map snap_date rs /\ d ∉ seen.
Proof.
  revert seen. induction rs as [|s rs IH]; intros seen; cbn [keep_first map].
  - split; [constructor|]. intros d. split; [intros H; inversion H | intros [H _]; inversion H].
  - case_bool_decide as Hseen.
    + destruct (IH seen) as [Hnd Hd]. split; [exact Hnd|].
      intros d. rewrite Hd, elem_of_cons. split; [tauto|].
      intros [[->|?] ?]; [done | tauto].
    + destruct (IH (snap_date s :: seen)) as [Hnd Hd]. cbn [map]. split.
      * apply NoDup_cons. split; [|exact Hnd].
        rewrite Hd. intros [_ Hn]. apply Hn. constructor.
      * intros d. rewrite !elem_of_cons, Hd, not_elem_of_cons.
        destruct (decide (d = snap_date s)) as [->|]; tauto.
Qed.

Lemma sorted_strictly {A} (key : A -> Z) (l : list A) :
  sorted_by key l -> NoDup (map key l) -> StronglySorted Z.lt (map key l).
Proof.
  unfold sorted_by. induction l as [|x l IH]; cbn [map]; intros Hs Hnd; [constructor|].
  apply StronglySorted_cons in Hs as [Hx Hs]. apply NoDup_cons in Hnd as [Hnot Hnd].
  apply StronglySorted_cons. split; [|now apply IH].
  apply Forall_forall. intros k Hk.
  apply (list_elem_of_fmap_1 key) in Hk as (y & -> & Hy).
  rewrite Forall_forall in Hx. specialize (Hx y Hy). simpl in Hx.
  assert (key x <> key y).
  { intros E. apply Hnot. rewrite E. exact (list_elem_of_fmap_2 key _ _ Hy). }
  lia.
Qed.

End SimulationRows.

(** ** What the rows of the simulation hold *)

Section SimulationContents.
Context {F : Type} {num : Number F} {csv : Type}.
Implicit Types (w : world F csv) (df : DataFrame F) (l : loc).

(** X7: on a ledger with a row, the frame of [bankroll_simulation] has one
    row for each date of the ledger and no other, in strictly ascending
    order of date. *)
Theorem bankroll_rows_are_the_dates w l df :
  heap w !! l = Some df ->
  df <> [] ->
  exists out,
    fst (bankroll_simulation l w) = Ok out /\
    StronglySorted Z.lt (map snap_date (sf_rows out)) /\
    forall d, d ∈ map snap_date (sf_rows out) <-> d ∈ map (fun r => date (bet r)) df.
Proof.
  intros E Hne. rewrite (bankroll_simulation_run _ _ _ E). cbn [fst].
  destruct (simulation_of_rows df Hne) as (cols & s & rest & Hk & ->).
  set (sorted := sort_by (fun r => date (bet r)) df) in *.
  eexists. split; [reflexivity|]. cbn [sf_rows].
  destruct (keep_first_dates [] (walk (seed_running sorted) sorted)) as [Hnd Hd].
  rewrite Hk in Hnd, Hd.
  assert (Hp : map snap_date (sort_by snap_date (s :: rest)) ≡ₚ map snap_date (s :: rest)).
  { apply Permutation_map, sort_by_perm. }
  split.
  - apply sorted_strictly; [apply sort_by_sorted|]. now rewrite Hp.
  - intros d. rewrite Hp, Hd, dates_of_walk.
    assert (Hs : map (fun r => date (bet r)) sorted ≡ₚ map (fun r => date (bet r)) df).
    { apply Permutation_map, sort_by_perm. }
    rewrite Hs. split; [tauto|]. intros ?; split; [done|]. intros H'; inversion H'.
Qed.


(** X9: where no two bets of the ledger have the same date, the row of a
    date holds for every book its starting balance plus the profits of all
    its bets up to and including that date. *)
Theorem snapshot_reflects_all_bets_to_date w l df :
  heap w !! l = Some df ->
  df <> [] ->
  NoDup (map (fun r => date (bet r)) df) ->
  exists out,
    fst (bankroll_simulation l w) = Ok out /\
    forall snap b,
      snap ∈ sf_rows out ->
      b ∈ map (fun r => book (bet r)) df ->
      dict_lookup (snap_balances snap) ("balance__" +:+ b) =
        Some (balance_after b
                (up_to_day (snap_date snap) (sort_by (fun r => date (bet r)) df))).
Proof.
  intros E Hne Hnd. rewrite (bankroll_simulation_run _ _ _ E). cbn [fst].
  destruct (simulation_of_rows df Hne) as (cols & s & rest & Hk & ->).
  set (sorted := sort_by (fun r => date (bet r)) df) in *.
  eexists. split; [reflexivity|]. cbn [sf_rows].
  intros snap b Hsnap Hb.
  apply elem_of_sort_by in Hsnap. rewrite <- Hk in Hsnap.
  assert (Hb' : b ∈ map (fun r => book (bet r)) sorted).
  { unfold sorted. now rewrite sort_by_perm. }
  assert (Hs : sorted_by (fun r => date (bet r)) sorted) by apply sort_by_sorted.
  assert (Hnd' : NoDup (map (fun r => date (bet r)) sorted)).
  { unfold sorted. now rewrite sort_by_perm. }
  destruct (kept_snapshot_balance sorted snap b Hs Hsnap Hb')
    as (pre & r & post & Hsplit & Hdate & Hpre & ->).
  rewrite Hdate, Hsplit. rewrite Hsplit in Hs, Hnd'.
  now rewrite (sorted_up_to_day pre r post Hs Hnd').
Qed.

End SimulationContents.

(** ** The simulation reads the bets only *)

Section SimulationOfBets.
Context {F : Type} {num : Number F} {csv : Type}.
Implicit Types (w : world F csv) (df : DataFrame F) (l : loc).

Lemma insert_by_map {A B} (f : A -> B) (key : B -> Z) (x : A) (xs : list A) :
  map f (insert_by (fun a => key (f a)) x xs) = insert_by key (f x) (map f xs).
Proof.
  induction xs as [|y xs IH]; simpl; [done|].
  destruct (key (f x) <=? key (f y))%Z; simpl; [done|]. now rewrite IH.
Qed.

Lemma sort_by_map {A B} (f : A -> B) (key : B -> Z) (xs : list A) :
  map f (sort_by (fun a => key (f a)) xs) = sort_by key (map f xs).
Proof.
  induction xs as [|x xs IH]; simpl; [done|]. now rewrite insert_by_map, IH.
Qed.

Lemma walk_bets (running : dict F) (rows rows' : DataFrame F) :
  map bet rows = map bet rows' -> walk running rows = walk running rows'.
Proof.
  revert running rows'. induction rows as [|r rows IH]; intros running [|r' rows'] E;
    try discriminate; [done|].
  injection E as Er Erows. cbn [walk]. rewrite Er. f_equal. now apply IH.
Qed.

Lemma simulation_of_bets df df' :
  map bet df = map bet df' -> simulation_of df = simulation_of df'.
Proof.
  intros E. unfold simulation_of. cbv zeta.
  assert (Hs : map bet (sort_by (fun r => date (bet r)) df)
               = map bet (sort_by (fun r => date (bet r)) df')).
  { rewrite !(sort_by_map bet date). now rewrite E. }
  assert (Hseed : seed_running (sort_by (fun r => date (bet r)) df)
                  = seed_running (sort_by (fun r => date (bet r)) df')).
  { unfold seed_running. rewrite <- !(map_map bet book). now rewrite Hs. }
  now rewrite Hseed, (walk_bets _ _ _ Hs).
Qed.

(** X10: [bankroll_simulation] returns the same frame whether or not
    [compute_metrics] has run on the ledger before: the column that
    [compute_metrics] adds does not reach the simulation. *)
Theorem bankroll_simulation_after_compute_metrics w l df :
  heap w !! l = Some df ->
  fst (bankroll_simulation l (snd (compute_metrics l w))) = fst (bankroll_simulation l w).
Proof.
  intros E. rewrite (compute_metrics_run _ _ _ E). cbn [snd].
  set (col := cumsum _). set (w1 := mkWorld _ _).
  assert (Hcol : length col = length df) by (unfold col; now rewrite length_cumsum, length_map).
  assert (E1 : heap w1 !! l = Some (with_cumulative_profit df col)).
  { unfold w1; simpl. apply list_lookup_insert_eq. eapply lookup_lt_Some, E. }
  rewrite (bankroll_simulation_run _ _ _ E1), (bankroll_simulation_run _ _ _ E). cbn [fst].
  apply simulation_of_bets. now apply bets_with_cumulative_profit.
Qed.

End SimulationOfBets.

(** ** The columns of the simulation *)

Section SimulationColumns.
Context {F : Type} {num : Number F} {csv : Type}.
Implicit Types (w : world F csv) (df : DataFrame F) (l : loc) (running : dict F).

Lemma keys_dict_set running k v :
  k ∈ map fst running -> map fst (dict_set running k v) = map fst running.
Proof.
  induction running as [|[k' v'] running IH]; cbn [map fst dict_set].
  - intros H; inversion H.
  - case_bool_decide as Hk; [done|]. rewrite elem_of_cons. intros [?|Hin]; [congruence|].
    cbn [map fst]. now rewrite IH.
Qed.

(** The loop keeps the books of the running balances, and every snapshot
    has the date and one balance for each of them. *)
Lemma snapshot_keys_walk running (rows : DataFrame F) snap :
  (forall r, r ∈ rows -> book (bet r) ∈ map fst running) ->
  snap ∈ walk running rows ->
  snapshot_keys snap = "date" :: map (String.app "balance__") (map fst running).
Proof.
  revert running. induction rows as [|r rows IH]; intros running Hbooks.
  - intros H; inversion H.
  - rewrite walk_cons, elem_of_cons.
    assert (Hk : map fst (step_running running r) = map fst running).
    { unfold step_running. apply keys_dict_set, Hbooks. constructor. }
    intros [-> | Hin].
    + unfold snapshot_keys, snapshot. cbn [snap_balances]. rewrite <- Hk.
      f_equal. now rewrite !map_map.
    + rewrite <- Hk. apply IH; [|exact Hin].
      intros r' Hr'. rewrite Hk. apply Hbooks. now constructor.
Qed.

Lemma unique_from_ext (seen seen' xs : list string) :
  (forall x, x ∈ seen <-> x ∈ seen') -> unique_from seen xs = unique_from seen' xs.
Proof.
  revert seen seen'. induction xs as [|x xs IH]; intros seen seen' H; [done|].
  cbn [unique_from]. rewrite (bool_decide_ext _ _ (H x)).
  case_bool_decide; [now apply IH|]. f_equal. apply IH.
  intros y. rewrite !elem_of_cons, H. done.
Qed.

Lemma unique_from_seen (seen xs : list string) :
  (forall x, x ∈ xs -> x ∈ seen) -> unique_from seen xs = [].
Proof.
  induction xs as [|x xs IH]; intros H; [done|].
  cbn [unique_from]. rewrite bool_decide_eq_true_2 by (apply H; constructor).
  apply IH. intros y Hy. apply H. now constructor.
Qed.

Lemma unique_from_fresh (seen xs rest : list string) :
  NoDup xs -> (forall x, x ∈ xs -> x ∉ seen) ->
  unique_from seen (xs ++ rest) = xs ++ unique_from (xs ++ seen) rest.
Proof.
  revert seen. induction xs as [|x xs IH]; intros seen Hnd Hfresh; [done|].
  apply NoDup_cons in Hnd as [Hx Hnd].
  cbn [app unique_from]. rewrite bool_decide_eq_false_2 by (apply Hfresh; constructor).
  f_equal. rewrite IH; [|done|].
  - f_equal. apply unique_from_ext. intros y.
    rewrite !elem_of_app, !elem_of_cons, elem_of_app. tauto.
  - intros y Hy. rewrite not_elem_of_cons. split.
    + intros ->. done.
    + apply Hfresh. now constructor.
Qed.

Lemma NoDup_unique_from (seen xs : list string) : NoDup (unique_from seen xs).
Proof.
  revert seen. induction xs as [|x xs IH]; intros seen; cbn [unique_from]; [constructor|].
  case_bool_decide; [apply IH|]. apply NoDup_cons. split; [|apply IH].
  rewrite elem_of_unique_from. intros [_ Hn]. apply Hn. constructor.
Qed.

(** The columns of a frame of rows that all have the keys [keys]. *)
Lemma columns_of_uniform_rows (keys : list string) (s : Snapshot F) (rest : list (Snapshot F)) :
  NoDup keys ->
  (forall s', s' ∈ s :: rest -> snapshot_keys s' = keys) ->
  sf_columns (frame_of_rows (s :: rest)) = keys.
Proof.
  intros Hnd Hall. unfold frame_of_rows. cbn [sf_columns map concat].
  rewrite (Hall s) by constructor. unfold unique.
  rewrite unique_from_fresh; [|done|intros x _ H; inversion H].
  rewrite unique_from_seen; [apply app_nil_r|].
  intros x Hx. apply elem_of_app. left.
  apply list_elem_of_In, in_concat in Hx as (ks & Hks & Hx).
  apply in_map_iff in Hks as (s' & <- & Hs').
  rewrite (Hall s') in Hx; [now apply list_elem_of_In|].
  apply elem_of_cons. right. now apply list_elem_of_In.
Qed.

(** The frame of the simulation of a ledger with a row. *)
Lemma simulation_of_frame df :
  df <> [] ->
  let sorted := sort_by (fun r => date (bet r)) df in
  let keys := "date" :: map (String.app "balance__")
                          (unique (map (fun r => book (bet r)) sorted)) in
  exists s rest,
    keep_first [] (walk (seed_running sorted) sorted) = s :: rest /\
    simulation_of df = Ok (mkSnapFrame keys (sort_by snap_date (s :: rest))) /\
    NoDup keys /\
    (forall snap, snap ∈ walk (seed_running sorted) sorted -> snapshot_keys snap = keys).
Proof.
  intros Hne sorted keys.
  unfold simulation_of. cbv zeta. fold sorted.
  assert (Hseed : map fst (seed_running sorted) = unique (map (fun r => book (bet r)) sorted)).
  { unfold seed_running. rewrite map_map. cbn [fst]. apply map_id. }
  assert (Hkeys : forall snap, snap ∈ walk (seed_running sorted) sorted ->
                               snapshot_keys snap = keys).
  { intros snap Hin. unfold keys. rewrite <- Hseed.
    apply (snapshot_keys_walk _ sorted); [|exact Hin].
    intros r Hr. rewrite Hseed. apply elem_of_unique.
    exact (list_elem_of_fmap_2 (fun r => book (bet r)) _ _ Hr). }
  assert (Hnd : NoDup keys).
  { unfold keys. apply NoDup_cons. split.
    - intros Hin. apply (list_elem_of_fmap_1 (String.app "balance__")) in Hin as (b & Hb & _).
      discriminate.
    - apply (NoDup_fmap_2 (String.app "balance__")). apply NoDup_unique_from. }
  assert (Hs : sorted <> []).
  { intros Hnil. apply Hne. apply Permutation_nil_r. rewrite <- Hnil. unfold sorted.
    symmetry. apply sort_by_perm. }
  destruct (walk (seed_running sorted) sorted) as [|s rest] eqn:Hw.
  { destruct sorted; [done | discriminate]. }
  pose proof (columns_of_uniform_rows keys s rest Hnd Hkeys) as Hcols.
  unfold drop_duplicates_date. cbn [sf_rows frame_of_rows] in *.
  rewrite Hcols.
  assert (Hdate : "date" ∈ keys) by (unfold keys; constructor).
  rewrite bool_decide_eq_true_2 by exact Hdate.
  unfold snap_sort_values_date. cbn [sf_columns sf_rows].
  rewrite bool_decide_eq_true_2 by exact Hdate.
  cbn [keep_first]. rewrite bool_decide_eq_false_2 by (intros H; inversion H).
  eexists _, _. split; [reflexivity|]. split; [reflexivity|]. split; [exact Hnd|].
  exact Hkeys.
Qed.


End SimulationColumns.

(** ** More on loading and appending *)

Section Files.
Context {F : Type} {num : Number F} {csv : Type}.
Implicit Types (w : world F csv) (L : DataFrame F) (R : BetRecord F) (l : loc).

Variable to_csv : DataFrame F -> csv.
Variable parse_csv : csv -> outcome (DataFrame F).

(** What [load_bets] makes of the file at [path]. *)
Lemma load_bets_run w path :
  load_bets parse_csv path w =
    match files w !! path with
    | None => (Ok (length (heap w)), mkWorld (heap w ++ [[]]) (files w))
    | Some c =>
        match parse_csv c with
        | Ok d => (Ok (length (heap w)), mkWorld (heap w ++ [d]) (files w))
        | Raise (FileNotFoundError _) =>
            (Ok (length (heap w)), mkWorld (heap w ++ [[]]) (files w))
        | Raise e => (Raise e, w)
        end
    end.
Proof.
  unfold load_bets, except_FileNotFoundError, read_csv, bind, read_file, lift, alloc.
  destruct (files w !! path) as [c|]; [|done].
  destruct (parse_csv c) as [d|[]]; done.
Qed.

Lemma load_bets_ok w path l1 w1 :
  load_bets parse_csv path w = (Ok l1, w1) ->
  exists d, l1 = length (heap w) /\ w1 = mkWorld (heap w ++ [d]) (files w) /\
            load_bets parse_csv path w1 = (Ok (S l1), mkWorld (heap w1 ++ [d]) (files w)).
Proof.
  rewrite load_bets_run. intros H.
  assert (exists d, (Ok l1, w1) = (Ok (length (heap w)), mkWorld (heap w ++ [d]) (files w)) /\
                    forall w', files w' = files w ->
                      load_bets parse_csv path w'
                      = (Ok (length (heap w')), mkWorld (heap w' ++ [d]) (files w')))
    as (d & [= -> ->] & Hagain).
  { destruct (files w !! path) as [c|] eqn:Hc.
    - destruct (parse_csv c) as [d|e] eqn:Hp.
      + exists d. split; [done|]. intros w' Hw'. now rewrite load_bets_run, Hw', Hc, Hp.
      + destruct e; try discriminate. exists []. split; [done|].
        intros w' Hw'. now rewrite load_bets_run, Hw', Hc, Hp.
    - exists []. split; [done|]. intros w' Hw'. now rewrite load_bets_run, Hw', Hc. }
  exists d. split; [done|]. split; [done|].
  rewrite Hagain by done. cbn [heap files]. rewrite length_app. cbn [length].
  now rewrite Nat.add_1_r.
Qed.

(** X12: the first run of the application, with no ledger file: [load_bets]
    returns a new ledger with no rows, creates no file and changes no
    object, and [compute_metrics] on that ledger returns 0 for every
    metric. *)
Theorem first_run_without_file w path :
  files w !! path = None ->
  exists l w1,
    load_bets parse_csv path w = (Ok l, w1) /\
    heap w1 !! l = Some [] /\
    files w1 = files w /\
    (forall l0 d, heap w !! l0 = Some d -> heap w1 !! l0 = Some d) /\
    fst (compute_metrics l w1)
      = Ok (mkMetrics 0 (num_of_Z 0) (num_of_Z 0) (num_of_Z 0) (num_of_Z 0)).
Proof.
  intros Hnone. rewrite load_bets_run, Hnone.
  eexists _, _. split; [reflexivity|]. cbn [heap files].
  assert (E : (heap w ++ [[]]) !! length (heap w) = Some ([] : DataFrame F))
    by (apply list_lookup_middle; reflexivity).
  split; [exact E|]. split; [reflexivity|]. split.
  { intros l0 d H0. now apply lookup_app_l_Some. }
  rewrite (compute_metrics_run (mkWorld (heap w ++ [[]]) (files w)) _ [] E). cbn [fst].
  unfold metrics_of, sum. cbn. now rewrite num_truth_zero.
Qed.


(** X14: [add_bet] does not change the frame it is given: it returns a new
    frame, leaves every object of the store as it was, and writes the file
    [bets_log.csv] and no other. *)
Theorem add_bet_leaves_its_argument w l L R :
  heap w !! l = Some L ->
  exists l1 w1,
    add_bet to_csv l R w = (Ok l1, w1) /\
    l1 <> l /\
    heap w1 !! l1 = Some (L ++ [mkRow R None]) /\
    (forall l0 d, heap w !! l0 = Some d -> heap w1 !! l0 = Some d) /\
    files w1 !! CSV_PATH = Some (to_csv (L ++ [mkRow R None])) /\
    (forall p, p <> CSV_PATH -> files w1 !! p = files w !! p).
Proof.
  intros E. rewrite (add_bet_run to_csv _ _ _ _ E).
  eexists _, _. split; [reflexivity|]. cbn [heap files]. split.
  { apply lookup_lt_Some in E. lia. }
  split; [apply list_lookup_middle; reflexivity|]. split.
  { intros l0 d H0. now apply lookup_app_l_Some. }
  split; [apply lookup_insert_eq|].
  intros p Hp. now apply lookup_insert_ne.
Qed.

(** X15: two bets added one after the other, each to the frame the
    previous call returned, are both in the ledger and in the file, in that
    order; added to the frame of before the first call, the second bet
    replaces the first in the file. *)
Theorem add_bet_twice w l L R1 R2 :
  heap w !! l = Some L ->
  exists l1 w1,
    add_bet to_csv l R1 w = (Ok l1, w1) /\
    (exists l2 w2,
       add_bet to_csv l1 R2 w1 = (Ok l2, w2) /\
       heap w2 !! l2 = Some (L ++ [mkRow R1 None; mkRow R2 None]) /\
       files w2 !! CSV_PATH = Some (to_csv (L ++ [mkRow R1 None; mkRow R2 None]))) /\
    (exists l2 w2,
       add_bet to_csv l R2 w1 = (Ok l2, w2) /\
       files w2 !! CSV_PATH = Some (to_csv (L ++ [mkRow R2 None]))).
Proof.
  intros E. rewrite (add_bet_run to_csv _ _ _ _ E).
  set (w1 := mkWorld _ _).
  assert (E1 : heap w1 !! length (heap w) = Some (L ++ [mkRow R1 None])).
  { unfold w1; cbn [heap]. apply list_lookup_middle. reflexivity. }
  assert (E0 : heap w1 !! l = Some L).
  { unfold w1; cbn [heap]. now apply lookup_app_l_Some. }
  eexists _, _. split; [reflexivity|]. split.
  - rewrite (add_bet_run to_csv _ _ _ _ E1).
    eexists _, _. split; [reflexivity|]. cbn [heap files]. rewrite <- app_assoc. split.
    + apply list_lookup_middle. reflexivity.
    + apply lookup_insert_eq.
  - rewrite (add_bet_run to_csv _ _ _ _ E0).
    eexists _, _. split; [reflexivity|]. cbn [files]. apply lookup_insert_eq.
Qed.

(** X16: a bet added to a frame on which [compute_metrics] has run is
    written with the frame's [cumulative_profit] column: the file then
    holds the running sums of the rows of before and no value for the new
    row. *)
Theorem add_bet_after_compute_metrics w l L R :
  heap w !! l = Some L ->
  exists l1 w1,
    add_bet to_csv l R (snd (compute_metrics l w)) = (Ok l1, w1) /\
    files w1 !! CSV_PATH =
      Some (to_csv (with_cumulative_profit L (cumsum (map (fun r => profit (bet r)) L))
                    ++ [mkRow R None])).
Proof.
  intros E. rewrite (compute_metrics_run _ _ _ E). cbn [snd].
  set (L' := with_cumulative_profit _ _). set (w0 := mkWorld _ _).
  assert (E0 : heap w0 !! l = Some L').
  { unfold w0; cbn [heap]. apply list_lookup_insert_eq. eapply lookup_lt_Some, E. }
  rewrite (add_bet_run to_csv _ _ _ _ E0).
  eexists _, _. split; [reflexivity|]. cbn [files]. apply lookup_insert_eq.
Qed.

End Files.

(** ** The labels of the bankroll chart *)

Section ChartLabels.

Lemma prefix_empty (s : string) : String.prefix "" s = true.
Proof. now destruct s. Qed.

Lemma prefix_app (old s : string) : String.prefix old (old +:+ s) = true.
Proof.
  induction old as [|a old IH]; [apply prefix_empty|].
  simpl. destruct (Ascii.ascii_dec a a); [exact IH | done].
Qed.

Lemma remove_from_skip (p old s : string) :
  remove_from (String.length p) old (p +:+ s) = remove_from 0 old s.
Proof. induction p as [|a p IH]; [done|]. exact IH. Qed.

Lemma remove_from_prefix (a : Ascii.ascii) (old s : string) :
  remove_from 0 (String a old) (String a old +:+ s) = remove_from 0 (String a old) s.
Proof.
  change (String a old +:+ s) with (String a (old +:+ s)).
  cbn [remove_from].
  change (String a (old +:+ s)) with (String a old +:+ s).
  rewrite prefix_app.
  replace (String.length (String a old) - 1)%nat with (String.length old)
    by (cbn [String.length]; lia).
  apply remove_from_skip.
Qed.

Lemma remove_from_no_occurrence (old s : string) :
  occurs old s = false -> remove_from 0 old s = s.
Proof.
  induction s as [|c s IH]; [done|].
  cbn [occurs remove_from]. intros H. apply orb_false_iff in H as [-> H].
  now rewrite IH.
Qed.

Lemma length_remove_from (skip : nat) (old s : string) :
  (String.length (remove_from skip old s) <= String.length s)%nat.
Proof.
  revert skip. induction s as [|c s IH]; intros skip; [done|].
  cbn [remove_from]. destruct skip as [|k].
  - destruct (String.prefix old (String c s)); cbn [String.length].
    + specialize (IH (String.length old - 1)%nat). lia.
    + specialize (IH 0%nat). lia.
  - cbn [String.length]. specialize (IH k). lia.
Qed.

Lemma remove_from_shorter (a : Ascii.ascii) (old s : string) :
  occurs (String a old) s = true ->
  (String.length (remove_from 0 (String a old) s) < String.length s)%nat.
Proof.
  induction s as [|c s IH]; [discriminate|].
  cbn [occurs remove_from]. intros H.
  destruct (String.prefix (String a old) (String c s)).
  - eapply Nat.le_lt_trans; [apply length_remove_from|]. cbn [String.length]. lia.
  - cbn [String.length]. specialize (IH H). lia.
Qed.

Lemma chart_label_of_column (b : string) :
  occurs "balance__" b = false -> chart_label ("balance__" +:+ b) = b.
Proof.
  intros H. unfold chart_label, str_remove.
  rewrite (remove_from_prefix _ _ b). now apply remove_from_no_occurrence.
Qed.

(** X17: the name of a balance column (line 78) and the label of the chart
    (line 167) round-trip exactly for the books whose name does not contain
    [balance__]: the label of the column of a book is the book again if
    and only if [balance__] does not occur in the book's name. *)
Theorem chart_label_round_trip (b : string) :
  chart_label ("balance__" +:+ b) = b <-> occurs "balance__" b = false.
Proof.
  unfold chart_label, str_remove.
  rewrite (remove_from_prefix _ _ b). split.
  - intros E. destruct (occurs "balance__" b) eqn:Ho; [|done].
    pose proof (remove_from_shorter _ _ b Ho) as Hlt.
    rewrite E in Hlt. lia.
  - apply remove_from_no_occurrence.
Qed.

End ChartLabels.

(** ** Submitting the form *)

Section SubmitProperties.
Context {csv : Type}.
Variable float_of_string : string -> option float.
Variable to_csv : DataFrame float -> csv.
Implicit Types (w : world float csv) (f : BetForm) (l : loc).

Lemma float_of_Z_Z2float (z : Z) (o : float) : Odds.float_of_Z z = Some o -> o = Z2float z.
Proof.
  unfold Odds.float_of_Z, Z2float.
  destruct (binary_normalize prec emax z 0 false); intros [= <-]; reflexivity.
Qed.

(** X18: a submission that fails stores nothing. A form with the odds 0
    raises [ZeroDivisionError]; whenever [submit_bet] raises, the exception
    is [ZeroDivisionError] or [OverflowError], it comes from building the
    new bet, before [add_bet], and the ledger, the other objects and the
    files are as before. *)
Theorem submit_bet_failure_stores_nothing f l w L :
  heap w !! l = Some L ->
  (form_odds_american f = 0%Z ->
   submit_bet float_of_string to_csv f l w = (Raise ZeroDivisionError, w)) /\
  (forall e w',
     submit_bet float_of_string to_csv f l w = (Raise e, w') ->
     w' = w /\ new_bet float_of_string f = Raise e /\
     (e = ZeroDivisionError \/ e = OverflowError)).
Proof.
  intros E. split.
  - intros Hz. unfold submit_bet, new_bet, bind, lift. rewrite Hz. reflexivity.
  - intros e w'. unfold submit_bet, bind, lift.
    destruct (new_bet float_of_string f) as [b|e0] eqn:Hb.
    + rewrite (add_bet_run to_csv _ _ _ _ E). discriminate.
    + intros [= <- <-]. split; [done|]. split; [done|].
      unfold new_bet in Hb.
      destruct (Odds.float_of_Z (form_odds_american f)) as [o|] eqn:Ho.
      * rewrite (american_to_decimal_on_float float_of_string
                   (Odds.PyInt (form_odds_american f)) o) in Hb
          by (cbn; now rewrite Ho).
        destruct (o =? 0)%float; [injection Hb as <-; now left|].
        destruct (0 <? o)%float; discriminate.
      * unfold Odds.american_to_decimal in Hb. cbn in Hb. rewrite Ho in Hb.
        injection Hb as <-. now right.
Qed.

(** X19: a bet that the form stores is the last row of the new ledger and
    is written to the file, and its [odds_decimal] is the conversion of its
    [odds_american]. *)
Theorem submit_bet_stores_converted_odds f l w L l1 w1 :
  heap w !! l = Some L ->
  submit_bet float_of_string to_csv f l w = (Ok l1, w1) ->
  exists b,
    heap w1 !! l1 = Some (L ++ [mkRow b None]) /\
    files w1 !! CSV_PATH = Some (to_csv (L ++ [mkRow b None])) /\
    odds_american b = Z2float (form_odds_american f) /\
    Odds.american_to_decimal float_of_string (Odds.PyFloat (odds_american b))
      = Ok (odds_decimal b).
Proof.
  intros E. unfold submit_bet, new_bet, bind, lift.
  destruct (Odds.american_to_decimal float_of_string (Odds.PyInt (form_odds_american f)))
    as [od|e] eqn:Hod; [|discriminate].
  rewrite (add_bet_run to_csv _ _ _ _ E). intros [= <- <-].
  eexists. cbn [heap files]. split; [apply list_lookup_middle; reflexivity|].
  split; [apply lookup_insert_eq|]. cbn [odds_american odds_decimal].
  split; [reflexivity|].
  destruct (Odds.float_of_Z (form_odds_american f)) as [o|] eqn:Ho.
  - rewrite <- (float_of_Z_Z2float _ _ Ho).
    rewrite (american_to_decimal_on_float float_of_string (Odds.PyFloat o) o eq_refl).
    rewrite <- Hod. symmetry.
    apply american_to_decimal_on_float. cbn. now rewrite Ho.
  - unfold Odds.american_to_decimal in Hod. cbn in Hod. rewrite Ho in Hod. discriminate.
Qed.

End SubmitProperties.


(** ** The dashboard *)

Section DashboardProperties.
Context {F : Type} {num : Number F} {csv : Type}.
Implicit Types (w : world F csv) (df : DataFrame F) (l : loc).

Lemma sort_values_date_run w l df :
  heap w !! l = Some df ->
  sort_values_date l w =
    (Ok (length (heap w)), mkWorld (heap w ++ [sort_by (fun r => date (bet r)) df]) (files w)).
Proof.
  intros E. unfold sort_values_date. now rewrite (bind_ok _ _ _ _ _ (deref_ok _ _ _ E)).
Qed.

Lemma sort_values_date_descending_run w l df :
  heap w !! l = Some df ->
  sort_values_date_descending l w =
    (Ok (length (heap w)),
     mkWorld (heap w ++ [rev (sort_by (fun r => date (bet r)) (rev df))]) (files w)).
Proof.
  intros E. unfold sort_values_date_descending.
  now rewrite (bind_ok _ _ _ _ _ (deref_ok _ _ _ E)).
Qed.

Lemma insert_by_cons {A} (key : A -> Z) (x : A) (xs : list A) :
  exists y ys, insert_by key x xs = y :: ys.
Proof. destruct xs as [|z xs]; simpl; [eauto|]. destruct (key x <=? key z)%Z; eauto. Qed.

(** The chart of a frame that has the column [date]. *)
Lemma bankroll_chart_ok (fr : SnapFrame F) :
  "date" ∈ sf_columns fr ->
  bankroll_chart fr =
    Ok (map (fun row => (fst (fst row), chart_label (snd (fst row)), snd row))
          (concat
             (map (fun c => map (fun s => (snap_date s, c, dict_lookup (snap_balances s) c))
                            (sf_rows fr))
                  (filter (fun c => c <> "date") (sf_columns fr))))).
Proof. intros H. unfold bankroll_chart, melt. now rewrite bool_decide_eq_true_2. Qed.

(** X20: the bankroll chart of a ledger with a row has, for every row of
    the simulation and every book of the ledger whose name does not contain
    [balance__], a point with the date of the row, the name of the book and
    the balance of the book in that row. *)
Theorem bankroll_chart_shows_every_book w l df :
  heap w !! l = Some df ->
  df <> [] ->
  exists out chart,
    fst (bankroll_simulation l w) = Ok out /\
    bankroll_chart out = Ok chart /\
    forall snap b,
      snap ∈ sf_rows out ->
      b ∈ map (fun r => book (bet r)) df ->
      occurs "balance__" b = false ->
      exists v,
        dict_lookup (snap_balances snap) ("balance__" +:+ b) = Some v /\
        (snap_date snap, b, Some v) ∈ chart.
Proof.
  intros E Hne. rewrite (bankroll_simulation_run _ _ _ E). cbn [fst].
  destruct (simulation_of_frame df Hne) as (s & rest & Hk & -> & Hnd & Hkeys).
  set (sorted := sort_by (fun r => date (bet r)) df) in *.
  set (keys := "date" :: _) in *.
  eexists _, _. split; [reflexivity|].
  split; [apply bankroll_chart_ok; cbn [sf_columns]; unfold keys; constructor|].
  cbn [sf_rows sf_columns].
  intros snap b Hsnap Hb Hocc.
  assert (Hb' : b ∈ unique (map (fun r => book (bet r)) sorted)).
  { apply elem_of_unique. unfold sorted. now rewrite sort_by_perm. }
  assert (Hwalk : snap ∈ walk (seed_running sorted) sorted).
  { apply elem_of_sort_by in Hsnap. rewrite <- Hk in Hsnap.
    eapply elem_of_keep_first, Hsnap. }
  assert (Hseed : map fst (seed_running sorted) = unique (map (fun r => book (bet r)) sorted)).
  { unfold seed_running. rewrite map_map. cbn [fst]. apply map_id. }
  destruct (walk_has_book _ _ _ b Hwalk) as [v Hv]; [now rewrite Hseed|].
  exists v. split; [exact Hv|].
  apply list_elem_of_In.
  rewrite <- (chart_label_of_column b Hocc) at 1. rewrite <- Hv.
  apply (in_map (fun row : Z * string * option F =>
                   (fst (fst row), chart_label (snd (fst row)), snd row))
           _ (snap_date snap, "balance__" +:+ b,
              dict_lookup (snap_balances snap) ("balance__" +:+ b))).
  apply in_concat.
  exists (map (fun s0 => (snap_date s0, "balance__" +:+ b,
                          dict_lookup (snap_balances s0) ("balance__" +:+ b)))
            (sort_by snap_date (s :: rest))).
  split.
  - apply (in_map (fun c => map (fun s0 => (snap_date s0, c, dict_lookup (snap_balances s0) c))
                              (sort_by snap_date (s :: rest)))).
    apply list_elem_of_In, list_elem_of_filter. split; [discriminate|].
    unfold keys. apply elem_of_cons. right.
    exact (list_elem_of_fmap_2 (String.app "balance__") _ _ Hb').
  - apply (in_map (fun s0 => (snap_date s0, "balance__" +:+ b,
                              dict_lookup (snap_balances s0) ("balance__" +:+ b)))).
    now apply list_elem_of_In.
Qed.

(** X21: the page never raises on the way from the ledger to its charts: on
    a ledger with no rows it stops before the dashboard, and otherwise the
    dashboard is computed in full, with the metrics of the ledger and with
    a bankroll chart; [bankroll_simulation] is not reached with an empty
    ledger. *)
Theorem dashboard_completes w l df :
  heap w !! l = Some df ->
  exists r,
    fst (dashboard l w) = Ok r /\
    (df = [] -> r = None) /\
    (df <> [] ->
     exists d chart,
       r = Some d /\
       dash_metrics d = metrics_of df /\
       dash_bankroll d = Some chart /\
       map bet (dash_cumulative d) = map bet (sort_by (fun r => date (bet r)) df)).
Proof.
  intros E. unfold dashboard.
  rewrite (bind_ok _ _ _ _ _ (len_ok _ _ _ E)).
  destruct df as [|r0 df0] eqn:Hdf.
  { eexists. split; [reflexivity|]. split; [done|]. intros H; done. }
  rewrite <- Hdf in *. assert (Hne : df <> []) by (rewrite Hdf; discriminate).
  replace (length df) with (S (length df0)) by (now rewrite Hdf). cbv iota.
  rewrite (bind_ok _ _ _ _ _ (compute_metrics_run _ _ _ E)).
  set (col := cumsum _). set (df1 := with_cumulative_profit df col). set (w1 := mkWorld _ _).
  assert (Hcol : length col = length df) by (unfold col; now rewrite length_cumsum, length_map).
  assert (Hb1 : map bet df1 = map bet df) by now apply bets_with_cumulative_profit.
  assert (Hne1 : df1 <> []).
  { intros Hnil. apply Hne. apply (f_equal (@length _)) in Hnil.
    unfold df1 in Hnil. rewrite length_with_cumulative_profit in Hnil by done.
    now destruct df. }
  assert (E1 : heap w1 !! l = Some df1).
  { unfold w1; cbn [heap]. apply list_lookup_insert_eq. eapply lookup_lt_Some, E. }
  rewrite (bind_ok _ _ _ _ _ (sort_values_date_run _ _ _ E1)).
  set (sorted1 := sort_by _ df1). set (w2 := mkWorld _ _).
  assert (E2s : heap w2 !! length (heap w1) = Some sorted1).
  { unfold w2; cbn [heap]. apply list_lookup_middle. reflexivity. }
  assert (E2 : heap w2 !! l = Some df1).
  { unfold w2; cbn [heap]. now apply lookup_app_l_Some. }
  rewrite (bind_ok _ _ _ _ _ (deref_ok _ _ _ E2s)).
  rewrite (bind_ok _ _ _ _ _ (deref_ok _ _ _ E2)).
  cbv zeta.
  destruct (simulation_of_frame df1 Hne1) as (s & rest & _ & Hsim & _ & _).
  revert Hsim. set (keys := "date" :: _). intros Hsim.
  destruct (insert_by_cons snap_date s (sort_by snap_date rest)) as (y & ys & Hy).
  change (sort_by snap_date (s :: rest)) with (insert_by snap_date s (sort_by snap_date rest))
    in Hsim.
  rewrite Hy in Hsim.
  pose proof (bankroll_simulation_run _ _ _ E2) as Hrun. rewrite Hsim in Hrun.
  rewrite (bind_ok _ _ _ _ _ Hrun).
  set (w3 := mkWorld _ _).
  assert (E3 : heap w3 !! l = Some df1).
  { unfold w3; cbn [heap]. now apply lookup_app_l_Some. }
  unfold snapframe_empty. cbn [sf_rows sf_columns]. unfold keys at 1.
  erewrite bind_ok; cycle 1.
  { erewrite bind_ok; [reflexivity|]. unfold lift.
    rewrite bankroll_chart_ok by (cbn [sf_columns]; unfold keys; constructor). reflexivity. }
  rewrite (bind_ok _ _ _ _ _ (sort_values_date_descending_run _ _ _ E3)).
  erewrite bind_ok; cycle 1.
  { apply deref_ok. cbn [heap]. apply list_lookup_middle. reflexivity. }
  eexists. split; [reflexivity|]. split; [intros H; congruence|].
  intros _. eexists _, _. split; [reflexivity|]. cbn [dash_metrics dash_bankroll dash_cumulative].
  split; [reflexivity|]. split; [reflexivity|].
  unfold sorted1. rewrite !(sort_by_map bet date). now rewrite Hb1.
Qed.

End DashboardProperties.

(** ** ROI by sport and by book *)

Section GroupedROI.
Context {F : Type} {num : Number F} {csv : Type}.
Implicit Types (w : world F csv) (df : DataFrame F) (l : loc).

Lemma unique_constant (xs : list string) (k : string) :
  xs <> [] -> (forall x, x ∈ xs -> x = k) -> unique xs = [k].
Proof.
  destruct xs as [|x xs]; [done|]. intros _ H.
  assert (x = k) as -> by (apply H; constructor).
  unfold unique. cbn [unique_from].
  rewrite bool_decide_eq_false_2 by (intros H'; inversion H'). f_equal.
  apply unique_from_seen. intros y Hy.
  assert (y = k) as -> by (apply H; now constructor). constructor.
Qed.


End GroupedROI.

Section GroupedROIFloat.
#[local] Open Scope float_scope.

(** A binary64 division by a zero gives an infinity or NaN. *)
Lemma div_by_zero_float (x y : float) :
  (y =? 0) = true -> is_nan (x / y) || is_infinity (x / y) = true.
Proof.
  unfold is_nan, is_infinity.
  rewrite !FloatAxioms.eqb_spec, FloatAxioms.abs_spec, FloatAxioms.div_spec.
  change (Prim2SF 0) with (S754_zero false).
  change (Prim2SF infinity) with (S754_infinity false).
  destruct (Prim2SF y) as [[|]|[|]| |[|] m e]; cbn; try discriminate; intros _;
    destruct (Prim2SF x) as [[|]|[|]| |[|] m' e']; reflexivity.
Qed.

(** X23: the grouped ROI divides without the guard of [compute_metrics]:
    in binary64, a group whose stakes sum to zero has an infinite or NaN
    ROI, where [compute_metrics] returns 0 for a ledger of such bets. *)
Theorem grouped_roi_of_zero_stake {csv : Type} (w : world float csv) (l : loc)
    (df : DataFrame float) (key : BetRecord float -> string) :
  heap w !! l = Some df ->
  (forall g, g ∈ roi_by key df -> (group_stake g =? 0) = true ->
             is_nan (group_roi g) || is_infinity (group_roi g) = true) /\
  (forall m, fst (compute_metrics l w) = Ok m -> (total_staked m =? 0) = true ->
             roi m = 0).
Proof.
  intros E. split.
  - intros g Hg Hz. unfold roi_by in Hg.
    apply list_elem_of_In, in_map_iff in Hg as (k & <- & _).
    cbn [group_stake group_roi] in *. now apply div_by_zero_float.
  - rewrite (compute_metrics_run _ _ _ E). cbn [fst]. intros m [= <-].
    unfold metrics_of. cbv zeta. cbn [total_staked roi].
    cbn [num_truth float_Number]. intros ->. reflexivity.
Qed.

End GroupedROIFloat.

(** ** The groups add up *)

Section GroupTotals.
Context {csv : Type}.
Implicit Types (w : world Q csv) (df : DataFrame Q) (l : loc).
#[local] Open Scope Q_scope.

Lemma insert_string_perm (x : string) (xs : list string) : insert_string x xs ≡ₚ x :: xs.
Proof.
  induction xs as [|y xs IH]; simpl; [done|].
  destruct (String.leb x y); [done|]. rewrite IH. apply Permutation_swap.
Qed.

Lemma sort_strings_perm (xs : list string) : sort_strings xs ≡ₚ xs.
Proof.
  induction xs as [|x xs IH]; simpl; [done|]. now rewrite insert_string_perm, IH.
Qed.

Lemma filter_key_split {A} (key : A -> string) (k : string) (ks : list string) (xs : list A) :
  k ∉ ks ->
  filter (fun r => key r = k) xs ++ filter (fun r => key r ∈ ks) xs
  ≡ₚ filter (fun r => key r ∈ k :: ks) xs.
Proof.
  intros Hk. induction xs as [|x xs IH]; [done|].
  destruct (decide (key x = k)) as [Ek|Ek].
  - rewrite (filter_cons_True (fun r => key r = k)) by done.
    rewrite (filter_cons_False (fun r => key r ∈ ks)) by (rewrite Ek; done).
    rewrite (filter_cons_True (fun r => key r ∈ k :: ks)) by (rewrite Ek; constructor).
    cbn [app]. now rewrite IH.
  - rewrite (filter_cons_False (fun r => key r = k)) by done.
    destruct (decide (key x ∈ ks)) as [Hin|Hin].
    + rewrite (filter_cons_True (fun r => key r ∈ ks)) by done.
      rewrite (filter_cons_True (fun r => key r ∈ k :: ks)) by (now constructor).
      rewrite <- Permutation_middle. now rewrite IH.
    + rewrite (filter_cons_False (fun r => key r ∈ ks)) by done.
      rewrite (filter_cons_False (fun r => key r ∈ k :: ks)); [exact IH|].
      rewrite elem_of_cons. tauto.
Qed.

Lemma groups_perm {A} (key : A -> string) (ks : list string) (xs : list A) :
  NoDup ks ->
  concat (map (fun k => filter (fun r => key r = k) xs) ks)
  ≡ₚ filter (fun r => key r ∈ ks) xs.
Proof.
  induction ks as [|k ks IH]; intros Hnd.
  - cbn. rewrite filter_none; [done|]. apply Forall_forall. intros x _ H. inversion H.
  - apply NoDup_cons in Hnd as [Hk Hnd]. cbn [map concat].
    rewrite (IH Hnd). now apply filter_key_split.
Qed.

Lemma sum_Q_concat (ls : list (list Q)) : fold_right Qplus 0 (map sum ls) == sum (concat ls).
Proof.
  induction ls as [|xs ls IH]; cbn [map concat fold_right].
  - now rewrite sum_Q.
  - rewrite IH, !sum_Q, fold_right_app.
    generalize (fold_right Qplus 0 (concat ls)). intros a.
    induction xs as [|x xs IHx]; cbn [fold_right]; [ring|]. rewrite <- IHx. ring.
Qed.

(** The sum of a column over the groups is its sum over the ledger. *)
Lemma group_sums_add_up (key : BetRecord Q -> string) (c : BetRecord Q -> Q) df :
  fold_right Qplus 0
    (map (fun k => sum (map (fun r => c (bet r)) (filter (fun r => key (bet r) = k) df)))
       (sort_strings (unique (map (fun r => key (bet r)) df))))
  == sum (map (fun r => c (bet r)) df).
Proof.
  set (ks := sort_strings _).
  assert (Hnd : NoDup ks).
  { unfold ks. rewrite sort_strings_perm. apply NoDup_unique_from. }
  assert (Hall : Forall (fun r => key (bet r) ∈ ks) df).
  { apply Forall_forall. intros r Hr. unfold ks. rewrite sort_strings_perm.
    apply elem_of_unique. exact (list_elem_of_fmap_2 (fun r => key (bet r)) _ _ Hr). }
  rewrite <- (map_map (fun k => map (fun r => c (bet r)) (filter (fun r => key (bet r) = k) df))
                sum).
  rewrite sum_Q_concat.
  rewrite <- (map_map (fun k => filter (fun r => key (bet r) = k) df)
                (map (fun r => c (bet r)))).
  rewrite <- concat_map.
  apply sum_Q_perm, Permutation_map.
  rewrite (groups_perm (fun r => key (bet r)) ks df Hnd).
  now rewrite (filter_all _ df Hall).
Qed.


End GroupTotals.

(** ** The further theorems at particular inputs *)

(** [compute_metrics_idempotent] on the example ledger. *)
Lemma compute_metrics_idempotent_witness :
  compute_metrics 0%nat (snd (compute_metrics 0%nat (one_ledger example_ledger_float)))
  = compute_metrics 0%nat (one_ledger example_ledger_float).
Proof.
  exact (compute_metrics_idempotent (one_ledger example_ledger_float) 0%nat
           example_ledger_float eq_refl).
Defined.

(** [win_rate_order_independent] on a ledger and its reverse. *)
Lemma win_rate_order_independent_witness :
  exists m m',
    fst (compute_metrics 0%nat (one_ledger three_book_ledger)) = Ok m /\
    fst (compute_metrics 0%nat (one_ledger (rev three_book_ledger))) = Ok m' /\
    total_bets m = total_bets m' /\
    win_rate m = win_rate m'.
Proof.
  exact (win_rate_order_independent (one_ledger three_book_ledger) 0%nat three_book_ledger
           (one_ledger (rev three_book_ledger)) 0%nat (rev three_book_ledger)
           eq_refl eq_refl (Permutation_rev three_book_ledger)).
Defined.




(** [bankroll_rows_are_the_dates] on the ledger of three books. *)
Lemma bankroll_rows_are_the_dates_witness :
  exists out,
    fst (bankroll_simulation 0%nat (one_ledger three_book_ledger)) = Ok out /\
    StronglySorted Z.lt (map snap_date (sf_rows out)) /\
    forall d, d ∈ map snap_date (sf_rows out)
              <-> d ∈ map (fun r => date (bet r)) three_book_ledger.
Proof.
  apply (bankroll_rows_are_the_dates (one_ledger three_book_ledger) 0%nat three_book_ledger).
  - reflexivity.
  - discriminate.
Defined.


(** [snapshot_reflects_all_bets_to_date] on the example ledger, whose bets
    are dated 1 and 2. *)
Lemma snapshot_reflects_all_bets_to_date_witness :
  exists out,
    fst (bankroll_simulation 0%nat (one_ledger example_ledger_float)) = Ok out /\
    forall snap b,
      snap ∈ sf_rows out ->
      b ∈ map (fun r => book (bet r)) example_ledger_float ->
      dict_lookup (snap_balances snap) ("balance__" +:+ b) =
        Some (balance_after b
                (up_to_day (snap_date snap)
                   (sort_by (fun r => date (bet r)) example_ledger_float))).
Proof.
  apply (snapshot_reflects_all_bets_to_date (one_ledger example_ledger_float) 0%nat
           example_ledger_float).
  - reflexivity.
  - discriminate.
  - cbn. apply NoDup_cons. split; [|apply NoDup_singleton].
    rewrite list_elem_of_singleton. discriminate.
Defined.

(** [bankroll_simulation_after_compute_metrics] on the ledger of three
    books. *)
Lemma bankroll_simulation_after_compute_metrics_witness :
  fst (bankroll_simulation 0%nat (snd (compute_metrics 0%nat (one_ledger three_book_ledger))))
  = fst (bankroll_simulation 0%nat (one_ledger three_book_ledger)).
Proof.
  exact (bankroll_simulation_after_compute_metrics (one_ledger three_book_ledger) 0%nat
           three_book_ledger eq_refl).
Defined.


(** [first_run_without_file] on the store of the first run. *)
Lemma first_run_without_file_witness :
  exists l w1,
    load_bets (fun _ => Ok []) CSV_PATH fresh_start = (Ok l, w1) /\
    heap w1 !! l = Some [] /\
    files w1 = files fresh_start /\
    (forall l0 d, heap fresh_start !! l0 = Some d -> heap w1 !! l0 = Some d) /\
    fst (compute_metrics l w1)
      = Ok (mkMetrics 0 (num_of_Z 0) (num_of_Z 0) (num_of_Z 0) (num_of_Z 0)).
Proof.
  apply (first_run_without_file (fun _ => Ok []) fresh_start CSV_PATH).
  reflexivity.
Defined.


(** [add_bet_leaves_its_argument] on the example ledger. *)
Lemma add_bet_leaves_its_argument_witness :
  exists l1 w1,
    add_bet (fun _ => tt) 0%nat (a_bet 3 "Caesars" 5%float 4%float)
      (one_ledger example_ledger_float) = (Ok l1, w1) /\
    l1 <> 0%nat /\
    heap w1 !! l1 = Some (example_ledger_float ++ [mkRow (a_bet 3 "Caesars" 5%float 4%float) None]) /\
    (forall l0 d, heap (one_ledger example_ledger_float) !! l0 = Some d ->
                  heap w1 !! l0 = Some d) /\
    files w1 !! CSV_PATH = Some tt /\
    (forall p, p <> CSV_PATH ->
               files w1 !! p = files (one_ledger example_ledger_float) !! p).
Proof.
  apply (add_bet_leaves_its_argument (fun _ => tt) (one_ledger example_ledger_float) 0%nat
           example_ledger_float (a_bet 3 "Caesars" 5%float 4%float)).
  reflexivity.
Defined.

(** [add_bet_twice] on the example ledger, for a file that holds the frame
    as it is. *)
Lemma add_bet_twice_witness :
  exists l1 w1,
    add_bet id 0%nat (a_bet 3 "Caesars" 5%Q 4%Q) (mkWorld [example_ledger_Q] ∅) = (Ok l1, w1) /\
    (exists l2 w2,
       add_bet id l1 (a_bet 4 "Caesars" 5%Q 1%Q) w1 = (Ok l2, w2) /\
       heap w2 !! l2 =
         Some (example_ledger_Q ++ [mkRow (a_bet 3 "Caesars" 5%Q 4%Q) None;
                                    mkRow (a_bet 4 "Caesars" 5%Q 1%Q) None]) /\
       files w2 !! CSV_PATH =
         Some (example_ledger_Q ++ [mkRow (a_bet 3 "Caesars" 5%Q 4%Q) None;
                                    mkRow (a_bet 4 "Caesars" 5%Q 1%Q) None])) /\
    (exists l2 w2,
       add_bet id 0%nat (a_bet 4 "Caesars" 5%Q 1%Q) w1 = (Ok l2, w2) /\
       files w2 !! CSV_PATH =
         Some (example_ledger_Q ++ [mkRow (a_bet 4 "Caesars" 5%Q 1%Q) None])).
Proof.
  apply (add_bet_twice (csv := DataFrame Q) id (mkWorld [example_ledger_Q] ∅) 0%nat
           example_ledger_Q).
  reflexivity.
Defined.

(** [add_bet_after_compute_metrics] on the example ledger. *)
Lemma add_bet_after_compute_metrics_witness :
  exists l1 w1,
    add_bet id 0%nat (a_bet 3 "Caesars" 5%Q 4%Q)
      (snd (compute_metrics 0%nat (mkWorld [example_ledger_Q] ∅))) = (Ok l1, w1) /\
    files w1 !! CSV_PATH =
      Some (with_cumulative_profit example_ledger_Q
              (cumsum (map (fun r => profit (bet r)) example_ledger_Q))
            ++ [mkRow (a_bet 3 "Caesars" 5%Q 4%Q) None]).
Proof.
  apply (add_bet_after_compute_metrics (csv := DataFrame Q) id
           (mkWorld [example_ledger_Q] ∅) 0%nat example_ledger_Q).
  reflexivity.
Defined.

(** [submit_bet_failure_stores_nothing] on the form with the odds 0. *)
Lemma submit_bet_failure_stores_nothing_witness :
  submit_bet (fun _ => None) (fun _ => tt) (form_with_odds 0) 0%nat
    (one_ledger example_ledger_float)
  = (Raise ZeroDivisionError, one_ledger example_ledger_float).
Proof.
  exact (proj1 (submit_bet_failure_stores_nothing (fun _ => None) (fun _ => tt)
                  (form_with_odds 0) 0%nat (one_ledger example_ledger_float)
                  example_ledger_float eq_refl) eq_refl).
Defined.

(** [submit_bet_stores_converted_odds] on the form with the odds -110. *)
Lemma submit_bet_stores_converted_odds_witness :
  exists b,
    heap (snd (submit_bet (fun _ => None) id (form_with_odds (-110)) 0%nat
                 (mkWorld [example_ledger_float] ∅))) !! 1%nat
      = Some (example_ledger_float ++ [mkRow b None]) /\
    files (snd (submit_bet (fun _ => None) id (form_with_odds (-110)) 0%nat
                  (mkWorld [example_ledger_float] ∅))) !! CSV_PATH
      = Some (example_ledger_float ++ [mkRow b None]) /\
    odds_american b = (-110)%float /\
    odds_decimal b = (1 + 100 / 110)%float.
Proof.
  destruct (submit_bet_stores_converted_odds (csv := DataFrame float) (fun _ => None) id
              (form_with_odds (-110)) 0%nat (mkWorld [example_ledger_float] ∅)
              example_ledger_float 1%nat
              (snd (submit_bet (fun _ => None) id (form_with_odds (-110)) 0%nat
                      (mkWorld [example_ledger_float] ∅)))
              eq_refl eq_refl)
    as (b & Hheap & Hfile & Ham & Hod).
  exists b. split; [exact Hheap|]. split; [exact Hfile|]. split; [exact Ham|].
  rewrite Ham in Hod. injection Hod as <-. reflexivity.
Defined.

(** [bankroll_chart_shows_every_book] on the ledger of three books. *)
Lemma bankroll_chart_shows_every_book_witness :
  exists out chart,
    fst (bankroll_simulation 0%nat (one_ledger three_book_ledger)) = Ok out /\
    bankroll_chart out = Ok chart /\
    forall snap b,
      snap ∈ sf_rows out ->
      b ∈ map (fun r => book (bet r)) three_book_ledger ->
      occurs "balance__" b = false ->
      exists v,
        dict_lookup (snap_balances snap) ("balance__" +:+ b) = Some v /\
        (snap_date snap, b, Some v) ∈ chart.
Proof.
  apply (bankroll_chart_shows_every_book (one_ledger three_book_ledger) 0%nat
           three_book_ledger).
  - reflexivity.
  - discriminate.
Defined.

(** [dashboard_completes] on the ledger of three books. *)
Lemma dashboard_completes_witness :
  exists r,
    fst (dashboard 0%nat (one_ledger three_book_ledger)) = Ok r /\
    (three_book_ledger = [] -> r = None) /\
    (three_book_ledger <> [] ->
     exists d chart,
       r = Some d /\
       dash_metrics d = metrics_of three_book_ledger /\
       dash_bankroll d = Some chart /\
       map bet (dash_cumulative d)
       = map bet (sort_by (fun r => date (bet r)) three_book_ledger)).
Proof.
  exact (dashboard_completes (one_ledger three_book_ledger) 0%nat three_book_ledger eq_refl).
Defined.


(** [grouped_roi_of_zero_stake] on the ledger of bets without stake. *)
Lemma grouped_roi_of_zero_stake_witness :
  (exists g, g ∈ roi_by sport free_bets_ledger /\
             is_nan (group_roi g) || is_infinity (group_roi g) = true) /\
  (exists m, fst (compute_metrics 0%nat (one_ledger free_bets_ledger)) = Ok m /\
             roi m = 0%float).
Proof.
  destruct (grouped_roi_of_zero_stake (one_ledger free_bets_ledger) 0%nat free_bets_ledger
              sport eq_refl) as [Hg Hm].
  split.
  - eexists. split; [apply list_elem_of_here|]. apply Hg; [apply list_elem_of_here|].
    reflexivity.
  - eexists. split; [reflexivity|]. apply Hm; reflexivity.
Defined.

